(** * Adjudicator feedback models (tabbycat/adjfeedback/models.py)

    A shallow embedding of the executable parts of the feedback data model:
    the answer-type dispatch tables, the number-scale helper and the
    serializer of [AdjudicatorFeedbackQuestion], and the derived properties,
    answer aggregation and validation of [AdjudicatorFeedback].

    Conventions of the embedding
    - A Python call that can raise is a computation in the [result] monad;
      the exceptions are the constructors of [exn].
    - A Python [int] is an integer ([Z]). A [float] is an IEEE 754 binary64
      value: a finite one is counted in units of [2^-1074], the smallest
      positive double, so that it is an integer with at most 53 significant
      bits and magnitude below [2^2098] units; float operations round to
      nearest, ties to even. The bounds of a question are finite floats.
      [int(x)] truncates towards zero and raises on an infinity or a NaN.
      Stored answers and weights, on which the module does no arithmetic,
      are kept as the rationals they denote.
    - Reading a reference that is not nullable while it is unset raises
      [RelatedObjectDoesNotExist], a subclass of [AttributeError]; it is
      raised here as [AttributeError].
    - A nullable reference is an [option]; a model instance is truthy, so
      [if self.x] tests [x] against [None].
    - A [dict] with string keys is a [gmap string _]; a [dict] whose key
      order is observed is an association list. *)

From Stdlib Require Import ZArith QArith Qround String Ascii List Lia Bool.
From stdpp Require Import gmap strings list fin_maps.

Local Open Scope Z_scope.

(** ** Exceptions and the result monad *)

Inductive exn : Type :=
| ValidationError (msg : string)
| AttributeError
| KeyError (key : string)
| ValueError
| TypeError
| OverflowError
| ZeroDivisionError
| DoesNotExist
| MultipleObjectsReturned.

Inductive result (A : Type) : Type :=
| Return (a : A)
| Raise (e : exn).

Arguments Return {A} a.
Arguments Raise {A} e.

#[export] Instance result_ret : MRet result := fun A a => Return a.

#[export] Instance result_bind : MBind result := fun A B f m =>
  match m with
  | Return a => f a
  | Raise e => Raise e
  end.

(** Python values that end up in dictionaries handed to other layers. *)
#[warnings="-register-all"]
Inductive pyval : Type :=
| PyNone
| PyBool (b : bool)
| PyInt (z : Z)
| PyFloat (q : Q)
| PyStr (s : string)
| PyRef (pk : Z)
| PyList (l : list pyval).

(** ** Python and Django built-ins used by the module *)

Module Py.

(** The float [1.0], in units of [2^-1074]. *)
Definition one : Z := 2 ^ 1074.

(** Exponent of the spacing of the doubles at a magnitude of [n] units:
    a double has 53 significant bits. *)
Definition ulp_shift (n : Z) : Z := Z.max 0 (Z.log2 n - 52).

(** The integer nearest to [a / b], ties to the even one ([0 <= a], [0 < b]). *)
Definition rne_div (a b : Z) : Z :=
  let q := a / b in
  let r := a mod b in
  if 2 * r <? b then q
  else if b <? 2 * r then q + 1
  else if Z.even q then q else q + 1.

(** [a / b] units ([0 < b]) rounded to 53 significant bits, to nearest and
    ties to even: first the magnitude, then the sign. The exponent is not
    bounded above here: a result of [2^2098] units or more is an overflow. *)
Definition round_magnitude (a b : Z) : Z :=
  let s := ulp_shift (a / b) in rne_div a (b * 2 ^ s) * 2 ^ s.

Definition round_ratio (a b : Z) : Z := Z.sgn a * round_magnitude (Z.abs a) b.

(** A number of units with at most 53 significant bits. *)
Definition on_grid (n : Z) : bool :=
  Z.abs n mod 2 ^ ulp_shift (Z.abs n) =? 0.

(** The finite doubles: at most 53 significant bits, magnitude below
    [2^1024]. *)
Definition is_double (n : Z) : bool :=
  (Z.abs n <? 2 ^ 2098) && on_grid n.

Record double : Type := { units : Z; double_ok : is_double units = true }.

Definition mk_double (n : Z) : option double :=
  match decide (is_double n = true) with
  | left H => Some {| units := n; double_ok := H |}
  | right _ => None
  end.

(** The largest finite double. *)
Definition max_double : Z := (2 ^ 53 - 1) * 2 ^ 2045.

Definition zero : double := {| units := 0; double_ok := eq_refl |}.

(** The double that a decimal literal within the range denotes: the one
    nearest to it. *)
Definition literal (q : Q) : double :=
  match mk_double (round_ratio (Qnum q * one) (Zpos (Qden q))) with
  | Some d => d
  | None => zero
  end.

(** The numbers the module computes with. *)
Inductive number : Type :=
| Int (z : Z)
| Float (x : double)
| Inf (negative : bool)
| NaN.

(** The value of a finite number, in units. *)
Definition value (x : number) : option Z :=
  match x with
  | Int z => Some (z * one)
  | Float d => Some (units d)
  | Inf _ | NaN => None
  end.

(** The float of a rounded result: beyond the range it is an infinity. *)
Definition float_of_units (n : Z) : number :=
  match mk_double n with
  | Some d => Float d
  | None => Inf (n <? 0)
  end.

(** [int(x)]: truncation towards zero; an infinity is an [OverflowError],
    a NaN a [ValueError]. *)
Definition int (x : number) : result Z :=
  match x with
  | Int z => Return z
  | Float d => Return (units d ÷ one)
  | Inf _ => Raise OverflowError
  | NaN => Raise ValueError
  end.

(** [x + 1]: exact on an [int], rounded on a [float]. *)
Definition add_one (x : number) : number :=
  match x with
  | Int z => Int (z + 1)
  | Float d => float_of_units (round_ratio (units d + one) 1)
  | Inf s => Inf s
  | NaN => NaN
  end.

(** [n / m] on integers: true division gives the float nearest to the
    quotient, and is an [OverflowError] when that is beyond the range. *)
Definition truediv (n m : Z) : result number :=
  if m =? 0 then Raise ZeroDivisionError
  else match mk_double (round_ratio (Z.sgn m * n * one) (Z.abs m)) with
       | Some d => Return (Float d)
       | None => Raise OverflowError
       end.

(** [a < b]; an [int] and a [float] are compared by value. *)
Definition lt (a b : number) : bool :=
  match a, b with
  | NaN, _ | _, NaN => false
  | Inf sa, Inf sb => sa && negb sb
  | Inf sa, _ => sa
  | _, Inf sb => negb sb
  | Int x, Int y => x <? y
  | Int x, Float y => x * one <? units y
  | Float x, Int y => units x <? y * one
  | Float x, Float y => units x <? units y
  end.

(** [max(a, b)]: the first argument unless the second is strictly larger. *)
Definition max (a b : number) : number := if lt a b then b else a.

(** [len(range(start, stop, step))] for a non-zero step. *)
Definition range_len (start stop step : Z) : Z :=
  if 0 <? step then
    if start <? stop then (stop - start - 1) / step + 1 else 0
  else
    if stop <? start then (start - stop - 1) / (- step) + 1 else 0.

(** [list(range(start, stop, step))]; a zero step is a [ValueError]. *)
Definition range (start stop step : Z) : result (list Z) :=
  if step =? 0 then Raise ValueError
  else Return (map (fun i : nat => start + Z.of_nat i * step)
                   (seq 0 (Z.to_nat (range_len start stop step)))).

(** [x in xs] for items compared by a boolean equality. *)
Definition contains {A : Type} (eqb : A -> A -> bool) (x : A) (xs : list A) : bool :=
  existsb (eqb x) xs.

(** Truth value of a nullable reference: a model instance is truthy. *)
Definition truth {A : Type} (x : option A) : bool :=
  match x with Some _ => true | None => false end.

(** [x is not None] *)
Definition is_not_None {A : Type} (x : option A) : bool :=
  match x with Some _ => true | None => false end.

(** [str.lower()] on ASCII text. *)
Definition lower_char (c : ascii) : ascii :=
  let n := nat_of_ascii c in
  if ((65 <=? n)%nat && (n <=? 90)%nat)%bool then ascii_of_nat (n + 32) else c.

Fixpoint lower (s : string) : string :=
  match s with
  | EmptyString => EmptyString
  | String c s' => String (lower_char c) (lower s')
  end.

(** [d.pop(key)] without a default: a missing key is a [KeyError]. *)
Definition pop {V : Type} (key : string) (d : gmap string V) : result (V * gmap string V) :=
  match d !! key with
  | Some v => Return (v, delete key d)
  | None => Raise (KeyError key)
  end.

End Py.

Coercion Py.Float : Py.double >-> Py.number.

Arguments Py.one : simpl never.
Arguments Py.round_ratio : simpl never.
Arguments Py.is_double : simpl never.

Module Django.

(** [django.utils.html.escape]: the five HTML-significant characters are
    replaced by entities, every other character is kept. *)
Definition escape_char (c : ascii) : string :=
  let n := nat_of_ascii c in
  if (n =? 38)%nat then "&amp;"
  else if (n =? 60)%nat then "&lt;"
  else if (n =? 62)%nat then "&gt;"
  else if (n =? 34)%nat then "&quot;"
  else if (n =? 39)%nat then "&#x27;"
  else String c EmptyString.

Fixpoint escape (s : string) : string :=
  match s with
  | EmptyString => EmptyString
  | String c s' => (escape_char c ++ escape s')%string
  end.

(** [QuerySet.get()]: exactly one matching row, or an exception. *)
Definition get {A : Type} (rows : list A) : result A :=
  match rows with
  | [] => Raise DoesNotExist
  | [x] => Return x
  | _ => Raise MultipleObjectsReturned
  end.

End Django.

(** ** Collaborating models (only the attributes this module reads) *)

Module Tournament.
Record t : Type := { pk : Z; preferences : string -> string }.
Definition pref (self : t) (name : string) : string := preferences self name.
End Tournament.

Module Round.
Record t : Type := { pk : Z; tournament : Tournament.t; feedback_weight : Q }.
End Round.

Module Adjudicator.
Record t : Type := { pk : Z; name : string }.
(** Model instances are equal when their primary keys are. *)
Definition eqb (a b : t) : bool := pk a =? pk b.
End Adjudicator.

Module Debate.
Record t : Type :=
  { pk : Z; round : option Round.t; adjudicators : list Adjudicator.t }.
End Debate.

Module DebateAdjudicator.
Record t : Type := { pk : Z; debate : Debate.t; adjudicator : Adjudicator.t }.
End DebateAdjudicator.

Module DebateTeam.
Record t : Type := { pk : Z; debate : Debate.t }.
End DebateTeam.

(** ** Answer tables *)

(** The five concrete answer models. *)
Inductive AnswerClass : Type :=
| AdjudicatorFeedbackBooleanAnswer
| AdjudicatorFeedbackIntegerAnswer
| AdjudicatorFeedbackFloatAnswer
| AdjudicatorFeedbackStringAnswer
| AdjudicatorFeedbackManyAnswer.

#[export] Instance AnswerClass_eq_dec : EqDecision AnswerClass.
Proof. solve_decision. Defined.

(** [cls.__name__] *)
Definition class_name (cls : AnswerClass) : string :=
  match cls with
  | AdjudicatorFeedbackBooleanAnswer => "AdjudicatorFeedbackBooleanAnswer"
  | AdjudicatorFeedbackIntegerAnswer => "AdjudicatorFeedbackIntegerAnswer"
  | AdjudicatorFeedbackFloatAnswer => "AdjudicatorFeedbackFloatAnswer"
  | AdjudicatorFeedbackStringAnswer => "AdjudicatorFeedbackStringAnswer"
  | AdjudicatorFeedbackManyAnswer => "AdjudicatorFeedbackManyAnswer"
  end.

(** A row of an answer table: the abstract [AdjudicatorFeedbackAnswer]
    fields plus the typed [answer] of the mixin. *)
Record AdjudicatorFeedbackAnswer (A : Type) : Type :=
  { question : Z; feedback : Z; answer : A }.

Arguments question {A} _.
Arguments feedback {A} _.
Arguments answer {A} _.

(** [Meta.unique_together = [('question', 'feedback')]] on one table. *)
Definition unique_together {A : Type} (rows : list (AdjudicatorFeedbackAnswer A)) : Prop :=
  List.NoDup (map (fun r => (question r, feedback r)) rows).

(** The stored rows this module queries. *)
Record Database : Type :=
  { boolean_answers : list (AdjudicatorFeedbackAnswer bool);
    integer_answers : list (AdjudicatorFeedbackAnswer Z);
    float_answers : list (AdjudicatorFeedbackAnswer Q);
    string_answers : list (AdjudicatorFeedbackAnswer string);
    many_answers : list (AdjudicatorFeedbackAnswer (list string));
    debateadjudicators : list DebateAdjudicator.t }.

(** The uniqueness constraint holds on every answer table. *)
Definition answer_tables_unique (db : Database) : Prop :=
  unique_together (boolean_answers db)
  /\ unique_together (integer_answers db)
  /\ unique_together (float_answers db)
  /\ unique_together (string_answers db)
  /\ unique_together (many_answers db).

Definition as_pyval {A : Type} (f : A -> pyval) (r : AdjudicatorFeedbackAnswer A)
  : AdjudicatorFeedbackAnswer pyval :=
  {| question := question r; feedback := feedback r; answer := f (answer r) |}.

(** [cls.objects.all()], answers seen as Python values. *)
Definition objects (db : Database) (cls : AnswerClass) : list (AdjudicatorFeedbackAnswer pyval) :=
  match cls with
  | AdjudicatorFeedbackBooleanAnswer => map (as_pyval PyBool) (boolean_answers db)
  | AdjudicatorFeedbackIntegerAnswer => map (as_pyval PyInt) (integer_answers db)
  | AdjudicatorFeedbackFloatAnswer => map (as_pyval PyFloat) (float_answers db)
  | AdjudicatorFeedbackStringAnswer => map (as_pyval PyStr) (string_answers db)
  | AdjudicatorFeedbackManyAnswer =>
      map (as_pyval (fun l => PyList (map PyStr l))) (many_answers db)
  end.

(** ** AnswerType *)

Inductive AnswerType : Type :=
| BOOLEAN_CHECKBOX
| BOOLEAN_SELECT
| INTEGER_TEXTBOX
| INTEGER_SCALE
| FLOAT
| TEXT
| LONGTEXT
| SINGLE_SELECT
| MULTIPLE_SELECT.

#[export] Instance AnswerType_eq_dec : EqDecision AnswerType.
Proof. solve_decision. Defined.

(** The stored code of each member ([AnswerType.X.value]). *)
Definition value (t : AnswerType) : string :=
  match t with
  | BOOLEAN_CHECKBOX => "bc"
  | BOOLEAN_SELECT => "bs"
  | INTEGER_TEXTBOX => "i"
  | INTEGER_SCALE => "is"
  | FLOAT => "f"
  | TEXT => "t"
  | LONGTEXT => "tl"
  | SINGLE_SELECT => "ss"
  | MULTIPLE_SELECT => "ms"
  end.

(** ** AdjudicatorFeedbackQuestion *)

Module AdjudicatorFeedbackQuestion.

Record t : Type :=
  { pk : Z;
    seq : Z;
    text : string;
    name : string;
    answer_type : string;
    required : bool;
    min_value : option Py.double;  (* a finite float, or None *)
    max_value : option Py.double;
    choices : list string;
    reference : string;
    from_adj : bool;
    from_team : bool }.

Definition ANSWER_CLASSES : gmap string AnswerClass :=
  list_to_map
    [ (value BOOLEAN_CHECKBOX, AdjudicatorFeedbackBooleanAnswer);
      (value BOOLEAN_SELECT, AdjudicatorFeedbackBooleanAnswer);
      (value INTEGER_TEXTBOX, AdjudicatorFeedbackIntegerAnswer);
      (value INTEGER_SCALE, AdjudicatorFeedbackIntegerAnswer);
      (value FLOAT, AdjudicatorFeedbackFloatAnswer);
      (value TEXT, AdjudicatorFeedbackStringAnswer);
      (value LONGTEXT, AdjudicatorFeedbackStringAnswer);
      (value SINGLE_SELECT, AdjudicatorFeedbackStringAnswer);
      (value MULTIPLE_SELECT, AdjudicatorFeedbackManyAnswer) ].

(** Kept as an association list: [get_answers] walks its keys in order. *)
Definition ANSWER_CLASSES_REVERSE : list (AnswerClass * list AnswerType) :=
  [ (AdjudicatorFeedbackStringAnswer, [TEXT; LONGTEXT; SINGLE_SELECT]);
    (AdjudicatorFeedbackManyAnswer, [MULTIPLE_SELECT]);
    (AdjudicatorFeedbackIntegerAnswer, [INTEGER_SCALE; INTEGER_TEXTBOX]);
    (AdjudicatorFeedbackFloatAnswer, [FLOAT]);
    (AdjudicatorFeedbackBooleanAnswer, [BOOLEAN_SELECT; BOOLEAN_CHECKBOX]) ].

Definition NUMERICAL_ANSWER_TYPES : list AnswerType :=
  [INTEGER_TEXTBOX; INTEGER_SCALE; FLOAT].

(** [ANSWER_CLASSES_REVERSE[cls]] *)
Definition reverse_lookup (cls : AnswerClass) : result (list AnswerType) :=
  match List.find (fun kv => bool_decide (fst kv = cls)) ANSWER_CLASSES_REVERSE with
  | Some kv => Return (snd kv)
  | None => Raise (KeyError (class_name cls))
  end.

Definition answer_type_class (self : t) : result AnswerClass :=
  match ANSWER_CLASSES !! answer_type self with
  | Some cls => Return cls
  | None => Raise (KeyError (answer_type self))
  end.

(** [answer_set]: the rows of the question's answer table that reference it. *)
Definition answer_set (db : Database) (self : t)
  : result (list (AdjudicatorFeedbackAnswer pyval)) :=
  cls ← answer_type_class self;
  mret (List.filter (fun r => question r =? pk self) (objects db cls)).

Definition choices_for_field (self : t) : list (string * string) :=
  map (fun x => (x, x)) (choices self).

(** The method does not read [self]; only the two bounds are arguments.
    The calls are made in the order Python evaluates them. *)
Definition construct_number_scale (min_value max_value : Py.number) : result (list Z) :=
  top ← Py.int max_value;
  bottom ← Py.int min_value;
  quotient ← Py.truediv (top - bottom) 10;
  let step := Py.max quotient (Py.Int 1) in
  start ← Py.int min_value;
  stop ← Py.int (Py.add_one max_value);
  step ← Py.int step;
  options ← Py.range start stop step;
  mret options.

Arguments construct_number_scale : simpl never.

(** [int(None)] is a [TypeError]. *)
Definition choices_for_number_scale (self : t) : result (list Z) :=
  match min_value self, max_value self with
  | Some lo, Some hi => construct_number_scale lo hi
  | _, _ => Raise TypeError
  end.

Definition serialize (self : t) : result (gmap string pyval) :=
  let question : gmap string pyval :=
    list_to_map
      [ ("text", PyStr (Django.escape (text self)));
        ("seq", PyInt (seq self));
        ("type", PyStr (answer_type self));
        ("required", PyStr (answer_type self));
        ("from_team", PyBool (from_team self));
        ("from_adj", PyBool (from_adj self)) ] in
  match choices self with
  | _ :: _ =>
      mret (<["choice_options" :=
                PyList (map (fun c => PyStr (Django.escape c)) (choices self))]> question)
  | [] =>
      if (Py.is_not_None (min_value self) && Py.is_not_None (max_value self))%bool
      then
        scale ← choices_for_number_scale self;
        mret (<["choice_options" := PyList (map PyInt scale)]> question)
      else mret question
  end.

End AdjudicatorFeedbackQuestion.

(** ** AdjudicatorFeedback *)

Module AdjudicatorFeedback.

(** Attributes an instance acquires lazily: the entries that
    [cached_property] stores in the instance dictionary, and [_debateadj]. *)
Record lazy_attrs : Type :=
  { cached_debate : option (option Debate.t);
    _debateadj : option (option DebateAdjudicator.t);
    cached_debate_adjudicator : option (option DebateAdjudicator.t);
    cached_feedback_weight : option Q }.

Definition no_lazy_attrs : lazy_attrs :=
  {| cached_debate := None; _debateadj := None;
     cached_debate_adjudicator := None; cached_feedback_weight := None |}.

Record t : Type :=
  { pk : Z;
    version : Z;
    adjudicator : option Adjudicator.t;
    score : Q;
    source_adjudicator : option DebateAdjudicator.t;
    source_team : option DebateTeam.t;
    ignored : bool;
    attrs : lazy_attrs }.

Definition with_attrs (f : lazy_attrs -> lazy_attrs) (self : t) : t :=
  {| pk := pk self; version := version self; adjudicator := adjudicator self;
     score := score self; source_adjudicator := source_adjudicator self;
     source_team := source_team self; ignored := ignored self;
     attrs := f (attrs self) |}.

Definition set_cached_debate (v : option Debate.t) (a : lazy_attrs) : lazy_attrs :=
  {| cached_debate := Some v; _debateadj := _debateadj a;
     cached_debate_adjudicator := cached_debate_adjudicator a;
     cached_feedback_weight := cached_feedback_weight a |}.

Definition set__debateadj (v : option DebateAdjudicator.t) (a : lazy_attrs) : lazy_attrs :=
  {| cached_debate := cached_debate a; _debateadj := Some v;
     cached_debate_adjudicator := cached_debate_adjudicator a;
     cached_feedback_weight := cached_feedback_weight a |}.

Definition set_cached_debate_adjudicator (v : option DebateAdjudicator.t) (a : lazy_attrs)
  : lazy_attrs :=
  {| cached_debate := cached_debate a; _debateadj := _debateadj a;
     cached_debate_adjudicator := Some v;
     cached_feedback_weight := cached_feedback_weight a |}.

Definition set_cached_feedback_weight (v : Q) (a : lazy_attrs) : lazy_attrs :=
  {| cached_debate := cached_debate a; _debateadj := _debateadj a;
     cached_debate_adjudicator := cached_debate_adjudicator a;
     cached_feedback_weight := Some v |}.

(** A method runs on an instance, may raise, and leaves the instance with
    the lazy attributes it has set (also when it raises). *)
Definition method (A : Type) : Type := t -> result A * t.

#[export] Instance method_ret : MRet method := fun A a self => (Return a, self).

#[export] Instance method_bind : MBind method := fun A B f m self =>
  match m self with
  | (Return a, self') => f a self'
  | (Raise e, self') => (Raise e, self')
  end.

Definition raise {A : Type} (e : exn) : method A := fun self => (Raise e, self).

(** Reading a stored field. *)
Definition attr {A : Type} (field : t -> A) : method A :=
  fun self => (Return (field self), self).

(** Assigning a lazy attribute. *)
Definition setattr (f : lazy_attrs -> lazy_attrs) : method unit :=
  fun self => (Return tt, with_attrs f self).

(** A call that does not touch the instance. *)
Definition call {A : Type} (r : result A) : method A := fun self => (r, self).

(** A call of a method that only reads the instance. *)
Definition query {A : Type} (f : t -> result A) : method A := fun self => (f self, self).

(** [try: body except DoesNotExist: handler] *)
Definition try_except_DoesNotExist {A : Type} (body handler : method A) : method A :=
  fun self =>
    match body self with
    | (Raise DoesNotExist, self') => handler self'
    | r => r
    end.

(** [django.utils.functional.cached_property]: the first successful read
    stores the value on the instance, later reads return the stored value. *)
Definition cached_property {A : Type}
    (stored : lazy_attrs -> option A) (store : A -> lazy_attrs -> lazy_attrs)
    (func : method A) : method A :=
  fun self =>
    match stored (attrs self) with
    | Some v => (Return v, self)
    | None =>
        match func self with
        | (Return v, self') => (Return v, with_attrs (store v) self')
        | (Raise e, self') => (Raise e, self')
        end
    end.

(** The base class [results.models.Submission]: the two methods this class
    extends through [super()]. Both are queries of the instance: they may
    raise but set no lazy attribute. *)
Class Submission : Type :=
  { Submission_clean : t -> result unit;
    Submission__unique_unconfirm_args : t -> result (gmap string pyval) }.

(** [adjudicator.debateadjudicator_set.filter(debate=d)]; the column is not
    nullable, so no row matches [None]. *)
Definition debateadjudicator_set_filter (db : Database) (adj : Adjudicator.t)
    (d : option Debate.t) : list DebateAdjudicator.t :=
  match d with
  | Some d =>
      List.filter
        (fun r => (Adjudicator.pk (DebateAdjudicator.adjudicator r) =? Adjudicator.pk adj)
                  && (Debate.pk (DebateAdjudicator.debate r) =? Debate.pk d))%bool
        (debateadjudicators db)
  | None => []
  end.

(** The reverse accessor [<answer model name, lower-cased>_set] of a feedback:
    the rows of that answer table which reference the feedback. *)
Definition getattr_set (db : Database) (self : t) (attr_name : string)
  : result (list (AdjudicatorFeedbackAnswer pyval)) :=
  match List.find (fun cls => String.eqb (Py.lower (class_name cls) ++ "_set") attr_name)
          [AdjudicatorFeedbackBooleanAnswer; AdjudicatorFeedbackIntegerAnswer;
           AdjudicatorFeedbackFloatAnswer; AdjudicatorFeedbackStringAnswer;
           AdjudicatorFeedbackManyAnswer] with
  | Some cls => Return (List.filter (fun r => feedback r =? pk self) (objects db cls))
  | None => Raise AttributeError
  end.

Definition debate : method (option Debate.t) :=
  cached_property cached_debate set_cached_debate
    (sa ← attr source_adjudicator;
     match sa with
     | Some sa => mret (Some (DebateAdjudicator.debate sa))
     | None =>
         st ← attr source_team;
         match st with
         | Some st => mret (Some (DebateTeam.debate st))
         | None => mret None
         end
     end).

Definition debate_adjudicator (db : Database) : method (option DebateAdjudicator.t) :=
  cached_property cached_debate_adjudicator set_cached_debate_adjudicator
    (has ← attr (fun self => _debateadj (attrs self));
     match has with
     | Some _ => mret tt
     | None =>
         try_except_DoesNotExist
           (adj ← attr adjudicator;
            match adj with
            | None => raise AttributeError
            | Some adj =>
                d ← debate;
                seat ← call (Django.get (debateadjudicator_set_filter db adj d));
                setattr (set__debateadj (Some seat))
            end)
           (setattr (set__debateadj None))
     end;;
     v ← attr (fun self => _debateadj (attrs self));
     match v with
     | Some v => mret v
     | None => raise AttributeError
     end).

Definition round : method (option Round.t) :=
  d ← debate;
  match d with
  | Some d => mret (Debate.round d)
  | None => raise AttributeError
  end.

Definition feedback_weight : method Q :=
  cached_property cached_feedback_weight set_cached_feedback_weight
    (r ← round;
     match r with
     | Some _ =>
         r ← round;
         match r with
         | Some r => mret (Round.feedback_weight r)
         | None => raise AttributeError
         end
     | None => mret 1%Q
     end).

Definition answer_dict (q : AdjudicatorFeedbackAnswer pyval) : gmap string pyval :=
  <["answer" := answer q]> (<["question" := PyRef (question q)]> ∅).

Fixpoint get_answers_loop (db : Database) (self : t) (typs : list AnswerClass)
  : result (list (gmap string pyval)) :=
  match typs with
  | [] => mret []
  | typ :: typs' =>
      rows ← getattr_set db self (Py.lower (class_name typ) ++ "_set");
      rest ← get_answers_loop db self typs';
      mret (map answer_dict rows ++ rest)
  end.

Definition get_answers (db : Database) (self : t) : result (list (gmap string pyval)) :=
  get_answers_loop db self (map fst AdjudicatorFeedbackQuestion.ANSWER_CLASSES_REVERSE).

(** The instance as it is loaded, before any lazy attribute is set. *)
Definition uncached (self : t) : t := with_attrs (fun _ => no_lazy_attrs) self.

(** Invariant of the instance dictionary: a value stored by
    [cached_property] is the value a first read computes from the fields. *)
Definition coherent (self : t) : Prop :=
  (forall d, cached_debate (attrs self) = Some d ->
             fst (debate (uncached self)) = Return d)
  /\ (forall w, cached_feedback_weight (attrs self) = Some w ->
                fst (feedback_weight (uncached self)) = Return w).

(** A feedback has exactly one source. *)
Definition exactly_one_source (self : t) : Prop :=
  (source_adjudicator self <> None /\ source_team self = None)
  \/ (source_adjudicator self = None /\ source_team self <> None).

Section methods.
Context {base : Submission}.

Definition _unique_unconfirm_args : method (gmap string pyval) :=
  kwargs ← query Submission__unique_unconfirm_args;
  st ← attr source_team;
  match st with
  | Some st =>
      match Debate.round (DebateTeam.debate st) with
      | Some r =>
          if String.eqb (Tournament.pref (Round.tournament r) "feedback_from_teams")
                        "orallist"
          then popped ← call (Py.pop "adjudicator" kwargs); mret (snd popped)
          else mret kwargs
      | None => raise AttributeError
      end
  | None => mret kwargs
  end.

(** [adjudicator] is declared without [null=True]: reading
    [self.adjudicator] while it is unset raises [RelatedObjectDoesNotExist]
    (an [AttributeError]) in the test of the third [if], so that test only
    ever sees a model instance, which is truthy. [self.debate.adjudicators]
    is an [AttributeError] when the debate is [None]. *)
Definition clean : method unit :=
  sa ← attr source_adjudicator;
  st ← attr source_team;
  if negb (Py.truth sa || Py.truth st) then
    raise (ValidationError "Either the source adjudicator or source team wasn't specified.")
  else if (Py.truth sa && Py.truth st)%bool then
    raise (ValidationError "There was both a source adjudicator and a source team.")
  else
    adj ← attr adjudicator;
    match adj with
    | None => raise AttributeError
    | Some adj =>
        if negb (Py.truth (Some adj)) then
          raise (ValidationError "There is no adjudicator specified as the target for this feedback. Perhaps they were deleted?")
        else
          d ← debate;
          match d with
          | None => raise AttributeError
          | Some d =>
              if negb (Py.contains Adjudicator.eqb adj (Debate.adjudicators d)) then
                raise (ValidationError "Adjudicator did not see this debate.")
              else query Submission_clean
          end
    end.

End methods.

End AdjudicatorFeedback.

(** ** Sample data: one debate of a tournament that collects team feedback
    as a single oral list *)

Module Sample.

Definition tournament : Tournament.t :=
  {| Tournament.pk := 1;
     Tournament.preferences := fun name =>
       if String.eqb name "feedback_from_teams" then "orallist" else "" |}.

Definition round : Round.t :=
  {| Round.pk := 1; Round.tournament := tournament; Round.feedback_weight := 1 # 2 |}.

Definition alice : Adjudicator.t := {| Adjudicator.pk := 1; Adjudicator.name := "Alice" |}.
Definition bob : Adjudicator.t := {| Adjudicator.pk := 2; Adjudicator.name := "Bob" |}.
Definition carol : Adjudicator.t := {| Adjudicator.pk := 3; Adjudicator.name := "Carol" |}.

Definition debate : Debate.t :=
  {| Debate.pk := 1; Debate.round := Some round; Debate.adjudicators := [alice; bob] |}.

Definition seat_alice : DebateAdjudicator.t :=
  {| DebateAdjudicator.pk := 1; DebateAdjudicator.debate := debate;
     DebateAdjudicator.adjudicator := alice |}.

Definition seat_bob : DebateAdjudicator.t :=
  {| DebateAdjudicator.pk := 2; DebateAdjudicator.debate := debate;
     DebateAdjudicator.adjudicator := bob |}.

Definition team : DebateTeam.t := {| DebateTeam.pk := 1; DebateTeam.debate := debate |}.

(** A team's feedback on Alice. *)
Definition from_team : AdjudicatorFeedback.t :=
  {| AdjudicatorFeedback.pk := 10; AdjudicatorFeedback.version := 1;
     AdjudicatorFeedback.adjudicator := Some alice; AdjudicatorFeedback.score := 4;
     AdjudicatorFeedback.source_adjudicator := None;
     AdjudicatorFeedback.source_team := Some team;
     AdjudicatorFeedback.ignored := false;
     AdjudicatorFeedback.attrs := AdjudicatorFeedback.no_lazy_attrs |}.

(** Bob's feedback on Alice. *)
Definition from_adjudicator : AdjudicatorFeedback.t :=
  {| AdjudicatorFeedback.pk := 11; AdjudicatorFeedback.version := 1;
     AdjudicatorFeedback.adjudicator := Some alice; AdjudicatorFeedback.score := 3;
     AdjudicatorFeedback.source_adjudicator := Some seat_bob;
     AdjudicatorFeedback.source_team := None;
     AdjudicatorFeedback.ignored := false;
     AdjudicatorFeedback.attrs := AdjudicatorFeedback.no_lazy_attrs |}.

(** Bob's feedback on Carol, who has no seat in the debate. *)
Definition on_absent : AdjudicatorFeedback.t :=
  {| AdjudicatorFeedback.pk := 12; AdjudicatorFeedback.version := 1;
     AdjudicatorFeedback.adjudicator := Some carol; AdjudicatorFeedback.score := 3;
     AdjudicatorFeedback.source_adjudicator := Some seat_bob;
     AdjudicatorFeedback.source_team := None;
     AdjudicatorFeedback.ignored := false;
     AdjudicatorFeedback.attrs := AdjudicatorFeedback.no_lazy_attrs |}.

Definition db : Database :=
  {| boolean_answers := [ {| question := 1; feedback := 10; answer := true |};
                          {| question := 1; feedback := 11; answer := false |} ];
     integer_answers := [ {| question := 2; feedback := 10; answer := 7 |} ];
     float_answers := [];
     string_answers := [ {| question := 3; feedback := 10; answer := "Clear"%string |} ];
     many_answers := [ {| question := 4; feedback := 11;
                          answer := ["Fair"; "Calm"]%string |} ];
     debateadjudicators := [seat_alice; seat_bob] |}.

(** The rows after the seats were withdrawn. *)
Definition db_without_seats : Database :=
  {| boolean_answers := boolean_answers db; integer_answers := integer_answers db;
     float_answers := float_answers db; string_answers := string_answers db;
     many_answers := many_answers db; debateadjudicators := [] |}.

(** The uniqueness key of a submission: the fields of the first
    [unique_together] entry other than [version]. *)
Definition unique_filter_args (self : AdjudicatorFeedback.t) : gmap string pyval :=
  let ref {A : Type} (pk : A -> Z) (x : option A) : pyval :=
    match x with Some x => PyRef (pk x) | None => PyNone end in
  <["adjudicator" := ref Adjudicator.pk (AdjudicatorFeedback.adjudicator self)]>
    (<["source_adjudicator" :=
         ref DebateAdjudicator.pk (AdjudicatorFeedback.source_adjudicator self)]>
       (<["source_team" := ref DebateTeam.pk (AdjudicatorFeedback.source_team self)]> ∅)).

(** A base class that validates nothing further. *)
Definition lenient : AdjudicatorFeedback.Submission :=
  {| AdjudicatorFeedback.Submission_clean := fun _ => Return tt;
     AdjudicatorFeedback.Submission__unique_unconfirm_args := fun self =>
       Return (unique_filter_args self) |}.

(** A base class with a validation rule of its own ([Submission.clean] lies
    outside this module and may have any), here one that fails. *)
Definition strict : AdjudicatorFeedback.Submission :=
  {| AdjudicatorFeedback.Submission_clean := fun _ =>
       Raise (ValidationError "A tab room ballot must have a user associated.");
     AdjudicatorFeedback.Submission__unique_unconfirm_args := fun self =>
       Return (unique_filter_args self) |}.

End Sample.

(** ** Markup characters *)

Module Markup.



End Markup.

(** ** Further sample data: rows left behind by a change of answer type,
    a feedback without a source, a base class with a shorter key *)

Module Orphans.

(** Question 1 was a checkbox and is now an integer scale: the feedback of
    the team has an answer in both tables. *)
Definition db : Database :=
  {| boolean_answers := [ {| question := 1; feedback := 10; answer := true |} ];
     integer_answers := [ {| question := 1; feedback := 10; answer := 4 |};
                          {| question := 2; feedback := 10; answer := 7 |} ];
     float_answers := [];
     string_answers := [];
     many_answers := [];
     debateadjudicators := [Sample.seat_alice; Sample.seat_alice; Sample.seat_bob] |}.

Definition question_1 : AdjudicatorFeedbackQuestion.t :=
  {| AdjudicatorFeedbackQuestion.pk := 1;
     AdjudicatorFeedbackQuestion.seq := 1;
     AdjudicatorFeedbackQuestion.text := "Rate the <decision> & its reasons";
     AdjudicatorFeedbackQuestion.name := "Decision";
     AdjudicatorFeedbackQuestion.answer_type := "is";
     AdjudicatorFeedbackQuestion.required := true;
     AdjudicatorFeedbackQuestion.min_value := Some (Py.literal (19 # 10));
     AdjudicatorFeedbackQuestion.max_value := Some (Py.literal (102 # 10));
     AdjudicatorFeedbackQuestion.choices := [];
     AdjudicatorFeedbackQuestion.reference := "decision";
     AdjudicatorFeedbackQuestion.from_adj := true;
     AdjudicatorFeedbackQuestion.from_team := true |}.

Definition question_choice : AdjudicatorFeedbackQuestion.t :=
  {| AdjudicatorFeedbackQuestion.pk := 5;
     AdjudicatorFeedbackQuestion.seq := 2;
     AdjudicatorFeedbackQuestion.text := "Who's best?";
     AdjudicatorFeedbackQuestion.name := "Best";
     AdjudicatorFeedbackQuestion.answer_type := "ss";
     AdjudicatorFeedbackQuestion.required := false;
     AdjudicatorFeedbackQuestion.min_value := None;
     AdjudicatorFeedbackQuestion.max_value := None;
     AdjudicatorFeedbackQuestion.choices := ["<b>A</b>"; "A"; "B & C"]%string;
     AdjudicatorFeedbackQuestion.reference := "best";
     AdjudicatorFeedbackQuestion.from_adj := true;
     AdjudicatorFeedbackQuestion.from_team := false |}.

(** A feedback on Alice that names no source. *)
Definition no_source : AdjudicatorFeedback.t :=
  {| AdjudicatorFeedback.pk := 13; AdjudicatorFeedback.version := 1;
     AdjudicatorFeedback.adjudicator := Some Sample.alice; AdjudicatorFeedback.score := 3;
     AdjudicatorFeedback.source_adjudicator := None;
     AdjudicatorFeedback.source_team := None;
     AdjudicatorFeedback.ignored := false;
     AdjudicatorFeedback.attrs := AdjudicatorFeedback.no_lazy_attrs |}.

(** A feedback from the team whose target has not been set. *)
Definition no_target : AdjudicatorFeedback.t :=
  {| AdjudicatorFeedback.pk := 14; AdjudicatorFeedback.version := 1;
     AdjudicatorFeedback.adjudicator := None; AdjudicatorFeedback.score := 3;
     AdjudicatorFeedback.source_adjudicator := None;
     AdjudicatorFeedback.source_team := Some Sample.team;
     AdjudicatorFeedback.ignored := false;
     AdjudicatorFeedback.attrs := AdjudicatorFeedback.no_lazy_attrs |}.

(** A base class whose uniqueness key has no target adjudicator. *)
Definition short_key : AdjudicatorFeedback.Submission :=
  {| AdjudicatorFeedback.Submission_clean := fun _ => Return tt;
     AdjudicatorFeedback.Submission__unique_unconfirm_args := fun self =>
       Return (delete "adjudicator" (Sample.unique_filter_args self)) |}.

End Orphans.

(** * Properties *)

(** ** Truncation, rounding and [range] *)

Section python_numbers.

Lemma quot_bounds (n d : Z) :
  0 < d ->
  (0 <= n -> d * (n ÷ d) <= n < d * (n ÷ d) + d) /\
  (n <= 0 -> d * (n ÷ d) - d < n <= d * (n ÷ d)).
Proof.
  intros Hd. split; intros Hn.
  - rewrite Z.quot_div_nonneg by lia.
    pose proof (Z.div_mod n d ltac:(lia)). pose proof (Z.mod_pos_bound n d Hd). lia.
  - assert (E : n ÷ d = - ((- n) / d)).
    { rewrite <- Z.quot_div_nonneg by lia. rewrite Z.quot_opp_l by lia. lia. }
    rewrite E.
    pose proof (Z.div_mod (- n) d ltac:(lia)). pose proof (Z.mod_pos_bound (- n) d Hd). lia.
Qed.

Lemma range_pos_step (start stop step : Z) :
  0 < step ->
  Py.range start stop step =
    Return (map (fun i : nat => start + Z.of_nat i * step)
                (seq 0 (Z.to_nat (Py.range_len start stop step)))).
Proof.
  intros H. unfold Py.range. destruct (Z.eqb_spec step 0); [lia | reflexivity].
Qed.

Lemma range_len_pos_step (start stop step : Z) :
  0 < step ->
  0 <= Py.range_len start stop step /\
  stop <= start + Py.range_len start stop step * step /\
  (0 < Py.range_len start stop step ->
   start + (Py.range_len start stop step - 1) * step < stop).
Proof.
  intros H. unfold Py.range_len.
  destruct (Z.ltb_spec 0 step) as [_ | ?]; [| lia].
  destruct (Z.ltb_spec start stop) as [Hlt | Hge]; [| lia].
  pose proof (Z.div_mod (stop - start - 1) step ltac:(lia)).
  pose proof (Z.mod_pos_bound (stop - start - 1) step H).
  assert (0 <= (stop - start - 1) / step) by (apply Z.div_pos; lia).
  nia.
Qed.

Lemma scale_steps_bound (d : Z) : 0 <= d -> d / Z.max (d / 10) 1 <= 19.
Proof.
  intros Hd.
  pose proof (Z.div_mod d 10 ltac:(lia)). pose proof (Z.mod_pos_bound d 10 ltac:(lia)).
  assert (0 <= d / 10) by (apply Z.div_pos; lia).
  assert (d / Z.max (d / 10) 1 < 20); [| lia].
  apply Z.div_lt_upper_bound; lia.
Qed.

(** *** Rounding to nearest *)

Lemma rne_div_lower (a b N : Z) : 0 < b -> N * b <= a -> N <= Py.rne_div a b.
Proof.
  intros Hb H. unfold Py.rne_div.
  assert (N <= a / b) by (apply Z.div_le_lower_bound; lia).
  repeat match goal with |- context [if ?c then _ else _] => destruct c end; lia.
Qed.

Lemma rne_div_upper (a b N : Z) : 0 < b -> a <= N * b -> Py.rne_div a b <= N.
Proof.
  intros Hb H. unfold Py.rne_div.
  pose proof (Z.div_mod a b ltac:(lia)). pose proof (Z.mod_pos_bound a b Hb).
  destruct (Z.ltb_spec (2 * (a mod b)) b).
  - assert (a / b < N + 1) by (apply Z.div_lt_upper_bound; lia). lia.
  - assert (a <> N * b) by (intros ->; rewrite Z.mod_mul in *; lia).
    assert (a / b < N) by (apply Z.div_lt_upper_bound; lia).
    repeat match goal with |- context [if ?c then _ else _] => destruct c end; lia.
Qed.

Lemma rne_div_exact (n b : Z) : 0 < b -> Py.rne_div (n * b) b = n.
Proof.
  intros Hb. unfold Py.rne_div. rewrite Z.div_mul, Z.mod_mul by lia.
  destruct (Z.ltb_spec (2 * 0) b); lia.
Qed.

Lemma ulp_shift_nonneg (n : Z) : 0 <= Py.ulp_shift n.
Proof. unfold Py.ulp_shift. lia. Qed.

Lemma ulp_shift_mono (n m : Z) : n <= m -> Py.ulp_shift n <= Py.ulp_shift m.
Proof.
  intros H. unfold Py.ulp_shift. pose proof (Z.log2_le_mono n m H). lia.
Qed.

Lemma pow2_pos (s : Z) : 0 <= s -> 0 < 2 ^ s.
Proof. intros. apply Z.pow_pos_nonneg; lia. Qed.

(** multiples *)
Lemma on_grid_multiple (c s : Z) :
  0 <= c -> Py.on_grid c = true -> 0 <= s <= Py.ulp_shift c ->
  exists k, c = k * 2 ^ s.
Proof.
  intros Hc H Hs. unfold Py.on_grid in H. rewrite Z.abs_eq in H by lia.
  apply Z.eqb_eq in H.
  pose proof (pow2_pos (Py.ulp_shift c) (ulp_shift_nonneg c)).
  apply Z.mod_divide in H; [| lia]. destruct H as [k Hk].
  exists (k * 2 ^ (Py.ulp_shift c - s)).
  rewrite <- Z.mul_assoc, <- Z.pow_add_r by lia.
  replace (Py.ulp_shift c - s + s) with (Py.ulp_shift c) by lia. exact Hk.
Qed.

Lemma round_ratio_mag (a b : Z) : Py.round_ratio a b = Z.sgn a * Py.round_magnitude (Z.abs a) b.
Proof. reflexivity. Qed.

Lemma round_magnitude_upper (a b c : Z) :
  0 <= a -> 0 < b -> Py.on_grid c = true -> a <= c * b -> Py.round_magnitude a b <= c.
Proof.
  intros Ha Hb Hc H. unfold Py.round_magnitude.
  assert (Hc0 : 0 <= c) by nia.
  assert (Hq : a / b <= c) by (apply Z.div_le_upper_bound; lia).
  pose proof (ulp_shift_mono _ _ Hq) as Hs.
  set (s := Py.ulp_shift (a / b)) in *.
  pose proof (ulp_shift_nonneg (a / b)) as Hs0. fold s in Hs0.
  destruct (on_grid_multiple c s Hc0 Hc ltac:(lia)) as [k ->].
  pose proof (pow2_pos s Hs0).
  apply Z.mul_le_mono_nonneg_r; [lia |].
  apply rne_div_upper; [lia | lia].
Qed.

Lemma ulp_shift_pos_iff (n : Z) : 0 < Py.ulp_shift n <-> 2 ^ 53 <= n.
Proof.
  unfold Py.ulp_shift. split; intros H.
  - assert (53 <= Z.log2 n) by lia.
    destruct (Z.le_gt_cases n 0). { rewrite Z.log2_nonpos in H0 by lia. lia. }
    apply Z.log2_le_pow2; lia.
  - assert (53 <= Z.log2 n); [| lia]. apply Z.log2_le_pow2; lia.
Qed.

Lemma round_magnitude_lower (a b c : Z) :
  0 <= a -> 0 < b -> 0 <= c -> Py.on_grid c = true -> c * b <= a -> c <= Py.round_magnitude a b.
Proof.
  intros Ha Hb Hc0 Hc H. unfold Py.round_magnitude.
  assert (Hq : c <= a / b) by (apply Z.div_le_lower_bound; lia).
  set (s := Py.ulp_shift (a / b)) in *.
  pose proof (ulp_shift_nonneg (a / b)) as Hs0. fold s in Hs0.
  pose proof (pow2_pos s Hs0) as Hp.
  destruct (Z.le_gt_cases s (Py.ulp_shift c)) as [Hs | Hs].
  - destruct (on_grid_multiple c s Hc0 Hc ltac:(lia)) as [k ->].
    apply Z.mul_le_mono_nonneg_r; [lia |].
    apply rne_div_lower; [lia | lia].
  - (* c lies in a lower binade *)
    assert (Hspos : 0 < s) by (pose proof (ulp_shift_nonneg c); lia).
    assert (HL : Z.log2 (a / b) = s + 52) by (subst s; unfold Py.ulp_shift in *; lia).
    assert (Hqpos : 0 < a / b).
    { destruct (Z.le_gt_cases (a / b) 0); [| lia].
      rewrite Z.log2_nonpos in HL by lia. lia. }
    pose proof (Z.log2_spec (a / b) Hqpos) as [Hlo _]. rewrite HL in Hlo.
    assert (Hclt : c < 2 ^ (s + 52)).
    { destruct (Z.le_gt_cases (2 ^ (s + 52)) c) as [Hge |]; [| lia].
      exfalso. assert (s + 52 <= Z.log2 c) by (apply Z.log2_le_pow2; lia).
      unfold Py.ulp_shift in Hs. lia. }
    rewrite Z.pow_add_r in Hlo, Hclt by lia.
    assert (2 ^ 52 <= Py.rne_div a (b * 2 ^ s)).
    { apply rne_div_lower; [lia |].
      assert (2 ^ s * 2 ^ 52 * b <= a / b * b) by (apply Z.mul_le_mono_nonneg_r; lia).
      pose proof (Z.div_mod a b ltac:(lia)). pose proof (Z.mod_pos_bound a b Hb). lia. }
    nia.
Qed.


Lemma on_grid_abs (n : Z) : Py.on_grid (Z.abs n) = Py.on_grid n.
Proof. unfold Py.on_grid. now rewrite Z.abs_idemp. Qed.

Lemma on_grid_opp (n : Z) : Py.on_grid (- n) = Py.on_grid n.
Proof. unfold Py.on_grid. now rewrite Z.abs_opp. Qed.

Lemma round_magnitude_nonneg (a b : Z) : 0 <= a -> 0 < b -> 0 <= Py.round_magnitude a b.
Proof.
  intros Ha Hb. unfold Py.round_magnitude.
  pose proof (pow2_pos _ (ulp_shift_nonneg (a / b))).
  apply Z.mul_nonneg_nonneg; [| lia].
  apply (rne_div_lower a _ 0); lia.
Qed.

Lemma round_ratio_upper (a b c : Z) :
  0 < b -> Py.on_grid c = true -> a <= c * b -> Py.round_ratio a b <= c.
Proof.
  intros Hb Hc H. rewrite round_ratio_mag.
  destruct (Z.lt_trichotomy a 0) as [Ha | [-> | Ha]].
  - rewrite Z.sgn_neg by lia.
    pose proof (round_magnitude_nonneg (Z.abs a) b ltac:(lia) Hb).
    destruct (Z.le_gt_cases 0 c); [lia |].
    assert (- c <= Py.round_magnitude (Z.abs a) b); [| lia].
    apply round_magnitude_lower; try lia. now rewrite on_grid_opp.
  - simpl. nia.
  - rewrite Z.sgn_pos, Z.abs_eq by lia.
    assert (Py.round_magnitude a b <= c); [| lia]. apply round_magnitude_upper; try lia. assumption.
Qed.

Lemma round_ratio_opp (a b : Z) : Py.round_ratio (- a) b = - Py.round_ratio a b.
Proof. rewrite !round_ratio_mag, Z.sgn_opp, Z.abs_opp. lia. Qed.

Lemma round_ratio_lower (a b c : Z) :
  0 < b -> Py.on_grid c = true -> c * b <= a -> c <= Py.round_ratio a b.
Proof.
  intros Hb Hc H.
  assert (Py.round_ratio (- a) b <= - c); [| rewrite round_ratio_opp in *; lia].
  apply round_ratio_upper; [lia | now rewrite on_grid_opp | lia].
Qed.

Lemma on_grid_scaled (v j : Z) :
  Z.abs v < 2 ^ 53 -> 0 <= j -> Py.on_grid (v * 2 ^ j) = true.
Proof.
  intros Hv Hj. unfold Py.on_grid. apply Z.eqb_eq.
  pose proof (pow2_pos j Hj) as Hp.
  rewrite Z.abs_mul, (Z.abs_eq (2 ^ j)) by lia.
  destruct (Z.eq_dec v 0) as [-> | Hv0]; [simpl; apply Z.mod_0_l; apply Z.pow_nonzero; [lia | apply ulp_shift_nonneg] |].
  assert (Hs : Py.ulp_shift (Z.abs v * 2 ^ j) <= j).
  { unfold Py.ulp_shift. rewrite Z.log2_mul_pow2 by lia.
    assert (Z.log2 (Z.abs v) < 53) by (apply Z.log2_lt_pow2; lia). lia. }
  pose proof (ulp_shift_nonneg (Z.abs v * 2 ^ j)) as Hs0.
  set (s := Py.ulp_shift (Z.abs v * 2 ^ j)) in *.
  replace j with ((j - s) + s) at 1 by lia. rewrite Z.pow_add_r by lia.
  rewrite Z.mul_assoc. apply Z.mod_mul. pose proof (pow2_pos s Hs0). lia.
Qed.

Lemma on_grid_pow2 (j : Z) : 0 <= j -> Py.on_grid (2 ^ j) = true.
Proof.
  intros Hj. replace (2 ^ j) with (1 * 2 ^ j) by lia. apply on_grid_scaled; lia.
Qed.

Lemma round_ratio_exact (n : Z) : Py.on_grid n = true -> Py.round_ratio n 1 = n.
Proof.
  intros H. unfold Py.round_ratio, Py.round_magnitude. rewrite Z.div_1_r, Z.mul_1_l.
  unfold Py.on_grid in H. apply Z.eqb_eq in H.
  pose proof (pow2_pos _ (ulp_shift_nonneg (Z.abs n))) as Hp.
  set (s := Py.ulp_shift (Z.abs n)) in *.
  apply Z.mod_divide in H; [| lia]. destruct H as [k Hk].
  rewrite Hk, rne_div_exact, <- Hk by lia. lia.
Qed.

Lemma round_magnitude_on_grid (a b : Z) : 0 <= a -> 0 < b -> Py.on_grid (Py.round_magnitude a b) = true.
Proof.
  intros Ha Hb. unfold Py.round_magnitude.
  set (s := Py.ulp_shift (a / b)).
  pose proof (ulp_shift_nonneg (a / b)) as Hs0. fold s in Hs0.
  pose proof (pow2_pos s Hs0) as Hp.
  assert (Hq0 : 0 <= a / b) by (apply Z.div_pos; lia).
  pose proof (Z.div_mod a b ltac:(lia)) as Hdm. pose proof (Z.mod_pos_bound a b Hb) as Hmb.
  assert (Hm0 : 0 <= Py.rne_div a (b * 2 ^ s)) by (apply (rne_div_lower a _ 0); lia).
  assert (Hup : a / b < 2 ^ (s + 53)).
  { destruct (Z.eq_dec (a / b) 0) as [-> | Hne].
    - apply Z.pow_pos_nonneg; lia.
    - pose proof (Z.log2_spec (a / b) ltac:(lia)) as [_ Hhi].
      eapply Z.lt_le_trans; [exact Hhi |].
      apply Z.pow_le_mono_r; [lia |]. subst s. unfold Py.ulp_shift. lia. }
  assert (Hm1 : Py.rne_div a (b * 2 ^ s) <= 2 ^ 53).
  { apply rne_div_upper; [lia |].
    rewrite Z.pow_add_r in Hup by lia. nia. }
  destruct (Z.eq_dec (Py.rne_div a (b * 2 ^ s)) (2 ^ 53)) as [-> | Hne].
  - rewrite <- Z.pow_add_r by lia. apply on_grid_pow2. lia.
  - apply on_grid_scaled; lia.
Qed.

Lemma round_ratio_on_grid (a b : Z) : 0 < b -> Py.on_grid (Py.round_ratio a b) = true.
Proof.
  intros Hb. rewrite round_ratio_mag.
  pose proof (round_magnitude_on_grid (Z.abs a) b ltac:(lia) Hb) as H.
  destruct (Z.lt_trichotomy a 0) as [Ha | [-> | Ha]].
  - rewrite Z.sgn_neg by lia.
    replace (-1 * Py.round_magnitude (Z.abs a) b) with (- Py.round_magnitude (Z.abs a) b) by lia.
    now rewrite on_grid_opp.
  - reflexivity.
  - rewrite Z.sgn_pos by lia. now rewrite Z.mul_1_l.
Qed.

Lemma mk_double_Some (n : Z) :
  Py.is_double n = true -> exists d, Py.mk_double n = Some d /\ Py.units d = n.
Proof.
  intros H. unfold Py.mk_double. destruct (decide _) as [E | E]; [| contradiction].
  eexists. split; reflexivity.
Qed.

Lemma is_double_intro (n : Z) :
  Z.abs n < 2 ^ 2098 -> Py.on_grid n = true -> Py.is_double n = true.
Proof.
  intros H1 H2. unfold Py.is_double. rewrite H2, andb_true_r. apply Z.ltb_lt. exact H1.
Qed.

Lemma is_double_elim (n : Z) :
  Py.is_double n = true -> Z.abs n < 2 ^ 2098 /\ Py.on_grid n = true.
Proof.
  unfold Py.is_double. intros H. apply andb_true_iff in H as [H1 H2].
  apply Z.ltb_lt in H1. split; assumption.
Qed.

Lemma one_pos : 0 < Py.one.
Proof. unfold Py.one. apply pow2_pos. lia. Qed.

Lemma max_double_on_grid : Py.on_grid Py.max_double = true.
Proof. apply on_grid_scaled; lia. Qed.

Lemma double_le_max (x : Z) : Py.is_double x = true -> x <= Py.max_double.
Proof.
  intros H. apply is_double_elim in H as [Hm Hg].
  destruct (Z.le_gt_cases (2 ^ 2097) x) as [Hbig | Hsmall].
  - assert (Hx : 0 <= x) by (pose proof (pow2_pos 2097 ltac:(lia)); lia).
    assert (HL : Z.log2 x = 2097).
    { apply Z.log2_unique; [lia |]. split; [assumption |].
      rewrite Z.abs_eq in Hm by lia. exact Hm. }
    destruct (on_grid_multiple x 2045 Hx Hg) as [k Hk].
    { unfold Py.ulp_shift. rewrite HL. lia. }
    rewrite Z.abs_eq in Hm by lia. unfold Py.max_double.
    pose proof (pow2_pos 2045 ltac:(lia)) as Hp.
    replace (2 ^ 2098) with (2 ^ 53 * 2 ^ 2045) in Hm by (rewrite <- Z.pow_add_r by lia; reflexivity).
    rewrite Hk in *. apply Z.mul_le_mono_nonneg_r; [lia |].
    apply Z.mul_lt_mono_pos_r in Hm; lia.
  - unfold Py.max_double.
    replace (2 ^ 2097) with (2 ^ 52 * 2 ^ 2045) in Hsmall by (rewrite <- Z.pow_add_r by lia; reflexivity).
    pose proof (pow2_pos 2045 ltac:(lia)) as Hp. nia.
Qed.


Lemma double_ge_min (x : Z) : Py.is_double x = true -> - Py.max_double <= x.
Proof.
  intros H. assert (Py.is_double (- x) = true).
  { unfold Py.is_double in *. rewrite Z.abs_opp, on_grid_opp. exact H. }
  pose proof (double_le_max _ H0). lia.
Qed.

Lemma is_double_max_double : Py.is_double Py.max_double = true.
Proof. vm_compute. reflexivity. Qed.

Lemma max_double_succ : Py.round_ratio (Py.max_double + Py.one) 1 = Py.max_double.
Proof. vm_compute. reflexivity. Qed.

Lemma max_double_alone (x : Z) :
  Py.is_double x = true -> Py.max_double < x + Py.one -> x = Py.max_double.
Proof.
  intros H Hx. pose proof (double_le_max x H) as Hle.
  apply is_double_elim in H as [Hm Hg].
  assert (Hbig : 2 ^ 2097 <= x).
  { unfold Py.max_double, Py.one in *.
    pose proof (pow2_pos 2045 ltac:(lia)) as Hp.
    replace (2 ^ 2097) with (2 ^ 52 * 2 ^ 2045) by (rewrite <- Z.pow_add_r by lia; reflexivity).
    assert (2 ^ 1074 <= 2 ^ 2045) by (apply Z.pow_le_mono_r; lia). nia. }
  assert (Hx0 : 0 <= x) by (pose proof (pow2_pos 2097 ltac:(lia)); lia).
  assert (HL : Z.log2 x = 2097).
  { apply Z.log2_unique; [lia |]. split; [assumption |].
    rewrite Z.abs_eq in Hm by lia. exact Hm. }
  destruct (on_grid_multiple x 2045 Hx0 Hg) as [k Hk].
  { unfold Py.ulp_shift. rewrite HL. lia. }
  unfold Py.max_double, Py.one in *.
  pose proof (pow2_pos 2045 ltac:(lia)) as Hp.
  assert (2 ^ 1074 <= 2 ^ 2045) by (apply Z.pow_le_mono_r; lia).
  subst x. f_equal.
  assert (k <= 2 ^ 53 - 1) by (apply Z.mul_le_mono_pos_r in Hle; lia).
  assert (2 ^ 53 - 2 < k); [| lia].
  apply (Z.mul_lt_mono_pos_r (2 ^ 2045)); lia.
Qed.

Lemma add_one_is_double (x : Z) :
  Py.is_double x = true -> Py.is_double (Py.round_ratio (x + Py.one) 1) = true.
Proof.
  intros H. apply is_double_intro; [| apply round_ratio_on_grid; lia].
  assert (- Py.max_double <= Py.round_ratio (x + Py.one) 1 <= Py.max_double).
  { split.
    - apply round_ratio_lower; [lia | rewrite on_grid_opp; apply max_double_on_grid |].
      pose proof (double_ge_min x H). pose proof one_pos. lia.
    - destruct (Z.le_gt_cases (x + Py.one) Py.max_double) as [Hle | Hgt].
      + apply round_ratio_upper; [lia | apply max_double_on_grid | lia].
      + rewrite (max_double_alone x H Hgt), max_double_succ. lia. }
  pose proof (is_double_elim _ is_double_max_double) as [Hm _].
  assert (0 <= Py.max_double) by (unfold Py.max_double; pose proof (pow2_pos 2045 ltac:(lia)); nia).
  rewrite Z.abs_eq in Hm by lia. lia.
Qed.

Lemma add_one_finite (d : Py.double) :
  exists d' : Py.double,
    Py.add_one (Py.Float d) = Py.Float d' /\
    Py.units d' = Py.round_ratio (Py.units d + Py.one) 1.
Proof.
  destruct (mk_double_Some _ (add_one_is_double _ (Py.double_ok d))) as (d' & E & Hu).
  exists d'. split; [| exact Hu]. simpl. unfold Py.float_of_units. now rewrite E.
Qed.

Lemma truediv_is_double (n : Z) :
  Z.abs n <= 2 ^ 1025 -> Py.is_double (Py.round_ratio (n * Py.one) 10) = true.
Proof.
  intros Hn. apply is_double_intro; [| apply round_ratio_on_grid; lia].
  assert (- 2 ^ 2097 <= Py.round_ratio (n * Py.one) 10 <= 2 ^ 2097).
  { assert (Z.abs n * Py.one <= 2 ^ 1025 * Py.one)
      by (apply Z.mul_le_mono_nonneg_r; [pose proof one_pos; lia | lia]).
    assert (E : 2 ^ 1025 * Py.one = 4 * 2 ^ 2097)
      by (unfold Py.one; rewrite <- Z.pow_add_r by lia; change 4 with (2 ^ 2);
          rewrite <- Z.pow_add_r by lia; reflexivity).
    pose proof (pow2_pos 2097 ltac:(lia)). pose proof one_pos.
    split.
    - apply round_ratio_lower; [lia | rewrite on_grid_opp; apply on_grid_pow2; lia | nia].
    - apply round_ratio_upper; [lia | apply on_grid_pow2; lia | nia]. }
  replace (2 ^ 2098) with (2 * 2 ^ 2097) by (change 2 with (2 ^ 1) at 1; rewrite <- Z.pow_add_r by lia; reflexivity).
  pose proof (pow2_pos 2097 ltac:(lia)). lia.
Qed.

Lemma truediv_finite (n : Z) :
  Z.abs n <= 2 ^ 1025 ->
  exists d : Py.double,
    Py.truediv n 10 = Return (Py.Float d) /\
    Py.units d = Py.round_ratio (n * Py.one) 10.
Proof.
  intros Hn.
  destruct (mk_double_Some _ (truediv_is_double n Hn)) as (d & E & Hu).
  exists d. split; [| exact Hu]. unfold Py.truediv.
  change (10 =? 0) with false. change (Z.sgn 10) with 1. change (Z.abs 10) with 10.
  cbv iota. rewrite Z.mul_1_l, E. reflexivity.
Qed.

Lemma int_double_bound (d : Py.double) : Z.abs (Py.units d ÷ Py.one) < 2 ^ 1024.
Proof.
  pose proof (is_double_elim _ (Py.double_ok d)) as [Hm _].
  pose proof one_pos as H1.
  rewrite <- Z.quot_abs by lia. rewrite (Z.abs_eq Py.one) by lia.
  rewrite Z.quot_div_nonneg by lia.
  apply Z.div_lt_upper_bound; [lia |].
  replace (Py.one * 2 ^ 1024) with (2 ^ 2098); [exact Hm |].
  unfold Py.one. rewrite <- Z.pow_add_r by lia. reflexivity.
Qed.


Lemma one_16 : Py.one = 16 * 2 ^ 1070.
Proof. unfold Py.one. change 16 with (2 ^ 4). rewrite <- Z.pow_add_r by lia. reflexivity. Qed.

Lemma quot_one_mul (z : Z) : z * Py.one ÷ Py.one = z.
Proof. apply Z.quot_mul. pose proof one_pos. lia. Qed.

Lemma quot_one_between (r k : Z) :
  0 <= k -> k * Py.one <= r < (k + 1) * Py.one -> r ÷ Py.one = k.
Proof.
  intros Hk [H1 H2]. pose proof one_pos as Hp.
  rewrite Z.quot_div_nonneg by nia.
  symmetry. apply (Z.div_unique r Py.one k (r - k * Py.one)); lia.
Qed.

(** *** Doubles that lie close together *)

Lemma on_grid_multiple_signed (c s : Z) :
  Py.on_grid c = true -> 0 <= s <= Py.ulp_shift (Z.abs c) -> exists k, c = k * 2 ^ s.
Proof.
  intros Hc Hs.
  destruct (on_grid_multiple (Z.abs c) s ltac:(lia)) as [k Hk].
  - now rewrite on_grid_abs.
  - exact Hs.
  - exists (Z.sgn c * k). rewrite <- Z.mul_assoc, <- Hk. lia.
Qed.

Lemma multiple_of_one (z : Z) :
  Py.on_grid z = true -> 2 ^ 52 * Py.one <= Z.abs z -> exists k, z = k * Py.one.
Proof.
  intros Hg Hz. apply on_grid_multiple_signed; [assumption |].
  split; [lia |]. unfold Py.ulp_shift.
  assert (1126 <= Z.log2 (Z.abs z)); [| lia].
  apply Z.log2_le_pow2.
  - pose proof one_pos. pose proof (pow2_pos 52 ltac:(lia)). nia.
  - replace (2 ^ 1126) with (2 ^ 52 * Py.one); [assumption |].
    unfold Py.one. rewrite <- Z.pow_add_r by lia. reflexivity.
Qed.

Lemma close_doubles_small (x y : Z) :
  Py.on_grid x = true -> Py.on_grid y = true -> x < y -> y < x + Py.one ->
  Z.abs y < 2 ^ 53 * Py.one.
Proof.
  intros Hx Hy Hlt Hclose. pose proof one_pos as Hp.
  destruct (Z.lt_ge_cases (Z.abs y) (2 ^ 53 * Py.one)) as [| Hbig]; [assumption | exfalso].
  destruct (multiple_of_one y Hy ltac:(lia)) as [ky ->].
  destruct (Z.le_gt_cases (2 ^ 52 * Py.one) (Z.abs x)) as [Hxb | Hxs].
  - destruct (multiple_of_one x Hx Hxb) as [kx ->].
    assert (kx < ky) by (apply (Z.mul_lt_mono_pos_r Py.one); lia).
    nia.
  - lia.
Qed.

Lemma stop_le (x c M : Z) :
  Py.on_grid c = true -> x + Py.one <= c -> c ÷ Py.one <= M ->
  Py.round_ratio (x + Py.one) 1 ÷ Py.one <= M.
Proof.
  intros Hc Hx HM.
  assert (Py.round_ratio (x + Py.one) 1 <= c) by (apply round_ratio_upper; [lia | assumption | lia]).
  pose proof (Z.quot_le_mono _ _ Py.one one_pos H). lia.
Qed.

Lemma same_binade_stop (x y N L : Z) :
  Py.on_grid x = true -> Py.on_grid y = true ->
  0 <= N -> N * Py.one < x -> x < y -> y < (N + 1) * Py.one ->
  Z.log2 x = L -> Z.log2 y = L -> 1073 <= L -> (N + 1) * Py.one <= 2 ^ (L + 1) ->
  Py.round_ratio (x + Py.one) 1 ÷ Py.one <= N + 1.
Proof.
  intros Hx Hy HN HNx Hxy HyN HLx HLy HL HB. pose proof one_pos as Hp.
  set (e := L - 52).
  assert (Hex : Py.ulp_shift (Z.abs x) = e) by (rewrite Z.abs_eq by lia; unfold Py.ulp_shift; lia).
  assert (Hey : Py.ulp_shift (Z.abs y) = e) by (rewrite Z.abs_eq by lia; unfold Py.ulp_shift; lia).
  assert (He : e <= 1073).
  { destruct (Z.le_gt_cases e 1073) as [| Hgt]; [assumption | exfalso].
    destruct (on_grid_multiple_signed x 1074 Hx ltac:(lia)) as [m Hm].
    change (2 ^ 1074) with Py.one in Hm. subst x.
    assert (N < m) by (apply (Z.mul_lt_mono_pos_r Py.one); lia).
    assert (m < N + 1) by (apply (Z.mul_lt_mono_pos_r Py.one); lia).
    lia. }
  destruct (on_grid_multiple_signed x e Hx ltac:(lia)) as [kx Hkx].
  destruct (on_grid_multiple_signed y e Hy ltac:(lia)) as [ky Hky].
  pose proof (pow2_pos e ltac:(lia)) as Hu.
  pose proof (pow2_pos (1073 - e) ltac:(lia)) as Hh.
  assert (Hone : Py.one = 2 * 2 ^ (1073 - e) * 2 ^ e).
  { unfold Py.one. rewrite <- Z.mul_assoc, <- Z.pow_add_r by lia.
    change 2 with (2 ^ 1) at 2. rewrite <- Z.pow_add_r by lia. f_equal. lia. }
  assert (Hh52 : 2 ^ (1073 - e) <= 2 ^ 52) by (apply Z.pow_le_mono_r; lia).
  assert (HNh : (N + 1) * 2 ^ (1073 - e) <= 2 ^ 52).
  { assert (E : 2 ^ (L + 1) = 2 * 2 ^ 52 * 2 ^ e).
    { change 2 with (2 ^ 1) at 2. rewrite <- !Z.pow_add_r by lia. f_equal. lia. }
    rewrite E, Hone in HB.
    assert ((N + 1) * 2 ^ (1073 - e) * (2 * 2 ^ e) <= 2 ^ 52 * (2 * 2 ^ e)) by lia.
    apply Z.mul_le_mono_pos_r in H; lia. }
  set (h := 2 ^ (1073 - e)) in *. set (u := 2 ^ e) in *.
  assert (Hky' : ky < (N + 1) * 2 * h).
  { apply (Z.mul_lt_mono_pos_r u); [lia |]. rewrite <- Hky. rewrite Hone in HyN. lia. }
  assert (Hkx' : kx < ky) by (apply (Z.mul_lt_mono_pos_r u); lia).
  apply (stop_le x (((N + 2) * h - 1) * 2 ^ (e + 1))).
  - apply on_grid_scaled; [| lia]. rewrite Z.abs_eq by nia. nia.
  - rewrite Z.pow_add_r by lia. fold u. change (2 ^ 1) with 2.
    rewrite Hkx, Hone.
    assert (kx * u <= ((N + 1) * 2 * h - 2) * u) by (apply Z.mul_le_mono_nonneg_r; lia).
    lia.
  - rewrite Z.pow_add_r by lia. fold u. change (2 ^ 1) with 2.
    assert (0 <= ((N + 2) * h - 1) * (u * 2)) by nia.
    rewrite Z.quot_div_nonneg by lia.
    assert (((N + 2) * h - 1) * (u * 2) / Py.one < N + 2); [| lia].
    apply Z.div_lt_upper_bound; [lia |]. rewrite Hone. nia.
Qed.

Lemma reversed_stop (x y : Z) :
  Py.is_double x = true -> Py.is_double y = true -> x < y ->
  Py.round_ratio (x + Py.one) 1 ÷ Py.one <= y ÷ Py.one + 1.
Proof.
  intros Hx Hy Hlt. pose proof one_pos as Hp.
  apply is_double_elim in Hx as [_ Hx]. apply is_double_elim in Hy as [_ Hy].
  destruct (Z.le_gt_cases (x + Py.one) y) as [Hfar | Hclose].
  { apply (stop_le x y); [assumption | assumption | lia]. }
  pose proof (close_doubles_small x y Hx Hy Hlt Hclose) as Hsmall.
  destruct (quot_bounds y Py.one Hp) as [Hq1 Hq2].
  set (N := y ÷ Py.one) in *.
  assert (HN : Z.abs N < 2 ^ 53).
  { destruct (Z.le_gt_cases 0 y); [specialize (Hq1 ltac:(lia)) | specialize (Hq2 ltac:(lia))]; nia. }
  destruct (Z.le_gt_cases x (N * Py.one)) as [Hbelow | Habove].
  - apply (stop_le x ((N + 1) * Py.one)); [| lia | rewrite quot_one_mul; lia].
    destruct (Z.eq_dec (N + 1) (2 ^ 53)) as [-> | Hne].
    + replace (2 ^ 53 * Py.one) with (2 ^ 1127)
        by (unfold Py.one; rewrite <- Z.pow_add_r by lia; reflexivity).
      apply on_grid_pow2. lia.
    + apply (on_grid_scaled (N + 1) 1074); lia.
  - assert (Hy0 : 0 <= y).
    { destruct (Z.le_gt_cases 0 y); [assumption |]. specialize (Hq2 ltac:(lia)). lia. }
    specialize (Hq1 Hy0). clear Hq2.
    assert (HN0 : 0 <= N) by nia.
    destruct (Z.le_gt_cases (x + Py.one) (3 * 2 ^ 1073)) as [Hlow | Hhigh].
    { apply (stop_le x (3 * 2 ^ 1073)); [apply on_grid_scaled; lia | assumption |].
      rewrite (quot_one_between _ 1); [lia | lia |].
      unfold Py.one. change (2 ^ 1074) with (2 * 2 ^ 1073).
      pose proof (pow2_pos 1073 ltac:(lia)). lia. }
    assert (Hx73 : 2 ^ 1073 <= x).
    { unfold Py.one in Hhigh. change (2 ^ 1074) with (2 * 2 ^ 1073) in Hhigh. lia. }
    assert (Hxpos : 0 < x) by (pose proof (pow2_pos 1073 ltac:(lia)); lia).
    destruct (Z.eq_dec N 0) as [HN' | HN'].
    + subst N. rewrite HN' in *.
      apply (same_binade_stop x y 0 1073); try assumption; try lia;
        try (apply Z.log2_unique; [lia |]); unfold Py.one in *; lia.
    + pose proof (Z.log2_spec N ltac:(lia)) as [Hk1 Hk2].
      pose proof (Z.log2_nonneg N) as Hk0.
      set (k := Z.log2 N) in *.
      assert (E1 : 2 ^ (k + 1074) = 2 ^ k * Py.one) by (unfold Py.one; rewrite Z.pow_add_r by lia; reflexivity).
      assert (E2 : 2 ^ (k + 1074 + 1) = 2 ^ Z.succ k * Py.one).
      { unfold Py.one. rewrite <- Z.pow_add_r by lia. f_equal. lia. }
      assert (HB : (N + 1) * Py.one <= 2 ^ (k + 1074 + 1)).
      { rewrite E2. apply Z.mul_le_mono_nonneg_r; lia. }
      assert (HA : 2 ^ (k + 1074) <= N * Py.one).
      { rewrite E1. apply Z.mul_le_mono_nonneg_r; lia. }
      apply (same_binade_stop x y N (k + 1074)); try assumption; try lia.
      * apply Z.log2_unique; [lia |]. rewrite <- Z.add_1_r. lia.
      * apply Z.log2_unique; [lia |]. rewrite <- Z.add_1_r. lia.
Qed.

End python_numbers.

(** ** The number scale *)

Section number_scale.

Lemma step_small (d : Z) :
  d <= 2 ^ 52 ->
  (if Py.round_ratio (d * Py.one) 10 <? 1 * Py.one then 1
   else Py.round_ratio (d * Py.one) 10 ÷ Py.one) = Z.max (d / 10) 1.
Proof.
  intros Hd. rewrite Z.mul_1_l.
  pose proof one_pos as Hp. pose proof one_16 as H16.
  pose proof (pow2_pos 1070 ltac:(lia)) as HP.
  destruct (Z.le_gt_cases 10 d) as [Hbig | Hsmall].
  - pose proof (Z.div_mod d 10 ltac:(lia)) as Hdm.
    pose proof (Z.mod_pos_bound d 10 ltac:(lia)) as Hmb.
    set (k := d / 10) in *.
    assert (Hk : 1 <= k < 2 ^ 49) by lia.
    assert (Hlo : k * Py.one <= Py.round_ratio (d * Py.one) 10).
    { apply round_ratio_lower; [lia | apply (on_grid_scaled k 1074); lia | nia]. }
    assert (Hhi : Py.round_ratio (d * Py.one) 10 <= (16 * (k + 1) - 1) * 2 ^ 1070).
    { apply round_ratio_upper; [lia | apply on_grid_scaled; lia |].
      rewrite H16. nia. }
    destruct (Z.ltb_spec (Py.round_ratio (d * Py.one) 10) Py.one) as [Hlt | Hge]; [nia |].
    rewrite (quot_one_between _ k); [lia | lia |]. split; [assumption |].
    rewrite H16 in *. lia.
  - assert (Hhi : Py.round_ratio (d * Py.one) 10 <= 15 * 2 ^ 1070).
    { apply round_ratio_upper; [lia | apply on_grid_scaled; lia |].
      rewrite H16. nia. }
    destruct (Z.ltb_spec (Py.round_ratio (d * Py.one) 10) Py.one) as [Hlt | Hge]; [| lia].
    assert (d / 10 < 1) by (apply Z.div_lt_upper_bound; lia). lia.
Qed.

Lemma step_general (d : Z) :
  1 <= (if Py.round_ratio (d * Py.one) 10 <? 1 * Py.one then 1
        else Py.round_ratio (d * Py.one) 10 ÷ Py.one).
Proof.
  rewrite Z.mul_1_l. pose proof one_pos as Hp.
  destruct (Z.ltb_spec (Py.round_ratio (d * Py.one) 10) Py.one) as [Hlt | Hge]; [lia |].
  rewrite Z.quot_div_nonneg by lia. apply Z.div_le_lower_bound; lia.
Qed.

Lemma construct_number_scale_floats (min_value max_value : Py.double) :
  AdjudicatorFeedbackQuestion.construct_number_scale min_value max_value =
    Py.range (Py.units min_value ÷ Py.one)
      (Py.round_ratio (Py.units max_value + Py.one) 1 ÷ Py.one)
      (if Py.round_ratio
            ((Py.units max_value ÷ Py.one - Py.units min_value ÷ Py.one) * Py.one) 10
          <? 1 * Py.one
       then 1
       else Py.round_ratio
              ((Py.units max_value ÷ Py.one - Py.units min_value ÷ Py.one) * Py.one) 10
            ÷ Py.one).
Proof.
  unfold AdjudicatorFeedbackQuestion.construct_number_scale.
  pose proof (int_double_bound min_value). pose proof (int_double_bound max_value).
  destruct (truediv_finite (Py.units max_value ÷ Py.one - Py.units min_value ÷ Py.one))
    as (q & Eq & Hq).
  { assert (2 ^ 1025 = 2 * 2 ^ 1024) by (change 2 with (2 ^ 1) at 2; rewrite <- Z.pow_add_r by lia; reflexivity).
    lia. }
  destruct (add_one_finite max_value) as (w & Ew & Hw).
  cbn [Py.int mbind result_bind]. rewrite Eq, Ew.
  cbn [Py.int mbind result_bind]. unfold Py.max, Py.lt. rewrite Hq, Hw.
  destruct (_ <? _); cbn [Py.int mbind result_bind]; rewrite ?Hq;
    match goal with |- context [Py.range ?a ?b ?c] => destruct (Py.range a b c) end; reflexivity.
Qed.

Lemma construct_number_scale_integral (min_value max_value : Py.number) (a b : Z) :
  Py.value min_value = Some (a * Py.one) ->
  Py.value max_value = Some (b * Py.one) ->
  Z.abs (b - a) <= 2 ^ 1025 -> Z.abs (b + 1) < 2 ^ 53 ->
  AdjudicatorFeedbackQuestion.construct_number_scale min_value max_value =
    Py.range a (b + 1)
      (if Py.round_ratio ((b - a) * Py.one) 10 <? 1 * Py.one then 1
       else Py.round_ratio ((b - a) * Py.one) 10 ÷ Py.one).
Proof.
  intros Hmin Hmax Hd Hb. pose proof one_pos as Hp.
  assert (Ha' : Py.int min_value = Return a).
  { destruct min_value; try discriminate; simpl in *; injection Hmin as E.
    - f_equal. nia.
    - rewrite E. now rewrite quot_one_mul. }
  assert (Hb' : Py.int max_value = Return b).
  { destruct max_value; try discriminate; simpl in *; injection Hmax as E.
    - f_equal. nia.
    - rewrite E. now rewrite quot_one_mul. }
  assert (Hs : Py.int (Py.add_one max_value) = Return (b + 1)).
  { destruct max_value; try discriminate; simpl in Hmax; injection Hmax as E.
    - simpl. f_equal. nia.
    - destruct (add_one_finite x) as (w & Ew & Hw). rewrite Ew. simpl. rewrite Hw, E.
      replace (b * Py.one + Py.one) with ((b + 1) * Py.one) by lia.
      rewrite round_ratio_exact by (apply (on_grid_scaled (b + 1) 1074); lia).
      now rewrite quot_one_mul. }
  destruct (truediv_finite (b - a) Hd) as (q & Eq & Hq).
  unfold AdjudicatorFeedbackQuestion.construct_number_scale. rewrite Ha', Hb'.
  cbn [mbind result_bind]. rewrite Eq. cbn [mbind result_bind]. rewrite Hs.
  cbn [mbind result_bind]. unfold Py.max, Py.lt. rewrite Hq.
  destruct (_ <? _); cbn [Py.int mbind result_bind]; rewrite ?Hq;
    match goal with |- context [Py.range ?a ?b ?c] => destruct (Py.range a b c) end; reflexivity.
Qed.

Lemma construct_number_scale_ints (a b : Z) :
  Z.abs (b - a) <= 2 ^ 1025 ->
  AdjudicatorFeedbackQuestion.construct_number_scale (Py.Int a) (Py.Int b) =
    Py.range a (b + 1)
      (if Py.round_ratio ((b - a) * Py.one) 10 <? 1 * Py.one then 1
       else Py.round_ratio ((b - a) * Py.one) 10 ÷ Py.one).
Proof.
  intros Hd. destruct (truediv_finite (b - a) Hd) as (q & Eq & Hq).
  unfold AdjudicatorFeedbackQuestion.construct_number_scale.
  cbn [Py.int Py.add_one mbind result_bind]. rewrite Eq.
  cbn [mbind result_bind]. unfold Py.max, Py.lt. rewrite Hq.
  destruct (_ <? _); cbn [Py.int mbind result_bind]; rewrite ?Hq;
    match goal with |- context [Py.range ?a ?b ?c] => destruct (Py.range a b c) end; reflexivity.
Qed.

Lemma construct_number_scale_returns (lo hi : Py.double) :
  exists scale, AdjudicatorFeedbackQuestion.construct_number_scale lo hi = Return scale.
Proof.
  rewrite construct_number_scale_floats.
  rewrite range_pos_step
    by (pose proof (step_general (Py.units hi ÷ Py.one - Py.units lo ÷ Py.one)); lia).
  eexists. reflexivity.
Qed.

(** C3 (as the code has it). For integer-valued bounds [a <= b] between
    [-2^51] and [2^51], given as [int]s or as floats, the call returns the
    arithmetic progression [a, a + step, ...] with
    [step = max((b - a) // 10, 1)] up to its last term not above [b]: it
    starts at [a], every element lies between [a] and [b], the last element
    is [b - (b - a) mod step], which is [b] only when the step divides
    [b - a], and there are at most 20 elements. The scales for (1, 10) and
    (0, 100) are the ones listed. *)
Theorem construct_number_scale_progression (min_value max_value : Py.number) (a b : Z) :
  Py.value min_value = Some (a * Py.one) ->
  Py.value max_value = Some (b * Py.one) ->
  - 2 ^ 51 <= a -> a <= b -> b <= 2 ^ 51 ->
  exists options : list Z,
    let step := Z.max ((b - a) / 10) 1 in
    AdjudicatorFeedbackQuestion.construct_number_scale min_value max_value = Return options
    /\ options = map (fun i : nat => a + Z.of_nat i * step)
                     (List.seq 0 (Z.to_nat ((b - a) / step + 1)))
    /\ (forall x, In x options -> a <= x <= b)
    /\ hd_error options = Some a
    /\ last options = Some (b - (b - a) mod step)
    /\ (length options <= 20)%nat
    /\ AdjudicatorFeedbackQuestion.construct_number_scale (Py.Int 1) (Py.Int 10)
        = Return [1; 2; 3; 4; 5; 6; 7; 8; 9; 10]
    /\ AdjudicatorFeedbackQuestion.construct_number_scale (Py.Int 0) (Py.Int 100)
        = Return [0; 10; 20; 30; 40; 50; 60; 70; 80; 90; 100]
    /\ AdjudicatorFeedbackQuestion.construct_number_scale (Py.literal 1) (Py.literal 10)
        = Return [1; 2; 3; 4; 5; 6; 7; 8; 9; 10]
    /\ AdjudicatorFeedbackQuestion.construct_number_scale (Py.literal 0) (Py.literal 100)
        = Return [0; 10; 20; 30; 40; 50; 60; 70; 80; 90; 100].
Proof.
  intros Hmin Hmax Ha Hab Hb.
  set (step := Z.max ((b - a) / 10) 1).
  assert (Hstep : 0 < step) by (subst step; lia).
  assert (Hq : 0 <= (b - a) / step) by (apply Z.div_pos; lia).
  pose proof (Z.div_mod (b - a) step ltac:(lia)) as Hdm.
  pose proof (Z.mod_pos_bound (b - a) step Hstep) as Hmb.
  exists (map (fun i : nat => a + Z.of_nat i * step)
              (List.seq 0 (Z.to_nat ((b - a) / step + 1)))).
  cbv zeta. fold step. split_and!.
  - rewrite (construct_number_scale_integral _ _ a b Hmin Hmax) by lia.
    rewrite step_small by lia. fold step. rewrite range_pos_step by assumption.
    do 3 f_equal. unfold Py.range_len.
    destruct (Z.ltb_spec 0 step); [| lia].
    destruct (Z.ltb_spec a (b + 1)); [| lia].
    replace (b + 1 - a - 1) with (b - a) by lia. reflexivity.
  - reflexivity.
  - intros x Hx. apply in_map_iff in Hx as (i & <- & Hi). apply in_seq in Hi.
    assert (Z.of_nat i <= (b - a) / step) by lia. nia.
  - rewrite Z2Nat.inj_add, Nat.add_1_r by lia.
    rewrite <- cons_seq. cbn [map hd_error]. f_equal. lia.
  - rewrite Z2Nat.inj_add, Nat.add_1_r, seq_S, map_app by lia.
    cbn [map]. rewrite last_snoc. f_equal. rewrite Nat.add_0_l. rewrite Z2Nat.id by lia. lia.
  - rewrite length_map, length_seq.
    pose proof (scale_steps_bound (b - a) ltac:(lia)) as Hs. fold step in Hs. lia.
  - vm_compute. reflexivity.
  - vm_compute. reflexivity.
  - vm_compute. reflexivity.
  - vm_compute. reflexivity.
Qed.

Lemma construct_number_scale_progression_witness :
  exists options : list Z,
    let step := Z.max ((47 - 3) / 10) 1 in
    AdjudicatorFeedbackQuestion.construct_number_scale (Py.literal 3) (Py.Int 47)
      = Return options
    /\ options = map (fun i : nat => 3 + Z.of_nat i * step)
                     (List.seq 0 (Z.to_nat ((47 - 3) / step + 1)))
    /\ (forall x, In x options -> 3 <= x <= 47)
    /\ hd_error options = Some 3
    /\ last options = Some (47 - (47 - 3) mod step)
    /\ (length options <= 20)%nat
    /\ AdjudicatorFeedbackQuestion.construct_number_scale (Py.Int 1) (Py.Int 10)
        = Return [1; 2; 3; 4; 5; 6; 7; 8; 9; 10]
    /\ AdjudicatorFeedbackQuestion.construct_number_scale (Py.Int 0) (Py.Int 100)
        = Return [0; 10; 20; 30; 40; 50; 60; 70; 80; 90; 100]
    /\ AdjudicatorFeedbackQuestion.construct_number_scale (Py.literal 1) (Py.literal 10)
        = Return [1; 2; 3; 4; 5; 6; 7; 8; 9; 10]
    /\ AdjudicatorFeedbackQuestion.construct_number_scale (Py.literal 0) (Py.literal 100)
        = Return [0; 10; 20; 30; 40; 50; 60; 70; 80; 90; 100].
Proof.
  apply (construct_number_scale_progression (Py.literal 3) (Py.Int 47) 3 47).
  - vm_compute. reflexivity.
  - reflexivity.
  - lia.
  - lia.
  - lia.
Defined.

(** C3 (as claimed) fails at (0, 25), as [int]s and as floats: the step is
    2, the scale has 13 values, that is 12 steps, and it ends at 24, short
    of the maximum. *)
Lemma construct_number_scale_stops_short :
  exists options : list Z,
    AdjudicatorFeedbackQuestion.construct_number_scale (Py.Int 0) (Py.Int 25) = Return options
    /\ AdjudicatorFeedbackQuestion.construct_number_scale (Py.literal 0) (Py.literal 25)
       = Return options
    /\ options = [0; 2; 4; 6; 8; 10; 12; 14; 16; 18; 20; 22; 24]
    /\ last options <> Some 25
    /\ (10 < length options - 1)%nat.
Proof.
  exists [0; 2; 4; 6; 8; 10; 12; 14; 16; 18; 20; 22; 24].
  split; [vm_compute; reflexivity |]. split; [vm_compute; reflexivity |].
  split; [reflexivity |]. split; [discriminate | simpl; lia].
Qed.

(** C10 (as the code has it). For finite floats [max_value < min_value] the
    call returns without raising: the step handed to [range] is 1 and the
    list holds at most one element, [int(min_value)], and none when the
    bounds are integer-valued. For [int]s [b < a] that are no more than
    [2^1025] apart the list is empty. Whenever the true division returns,
    the integer step is at least 1. *)
Theorem construct_number_scale_reversed (min_value max_value : Py.double) :
  Py.units max_value < Py.units min_value ->
  exists options : list Z,
    AdjudicatorFeedbackQuestion.construct_number_scale min_value max_value = Return options
    /\ (length options <= 1)%nat
    /\ (forall x, In x options -> Py.int min_value = Return x)
    /\ (forall a b : Z,
          Py.units min_value = a * Py.one -> Py.units max_value = b * Py.one -> options = [])
    /\ (forall a b : Z, b < a -> a - b <= 2 ^ 1025 ->
          AdjudicatorFeedbackQuestion.construct_number_scale (Py.Int a) (Py.Int b) = Return [])
    /\ (forall n quotient, Py.truediv n 10 = Return quotient ->
          exists step, Py.int (Py.max quotient (Py.Int 1)) = Return step /\ 1 <= step).
Proof.
  intros Hlt. pose proof one_pos as Hp.
  pose proof (reversed_stop _ _ (Py.double_ok max_value) (Py.double_ok min_value) Hlt) as Hstop.
  pose proof (Z.quot_le_mono _ _ Py.one Hp (Z.lt_le_incl _ _ Hlt)) as Hmono.
  assert (Hstep : forall d, d <= 0 ->
            (if Py.round_ratio (d * Py.one) 10 <? 1 * Py.one then 1
             else Py.round_ratio (d * Py.one) 10 ÷ Py.one) = 1).
  { intros d Hd. rewrite step_small by lia.
    assert (d / 10 <= 0) by (apply Z.div_le_upper_bound; lia). lia. }
  set (lo := Py.units min_value ÷ Py.one) in *.
  set (stop := Py.round_ratio (Py.units max_value + Py.one) 1 ÷ Py.one) in *.
  assert (Hlen : (Z.to_nat (Py.range_len lo stop 1) <= 1)%nat).
  { unfold Py.range_len. change (0 <? 1) with true. cbv iota.
    destruct (Z.ltb_spec lo stop); [| simpl; lia]. rewrite Z.div_1_r. lia. }
  exists (map (fun i : nat => lo + Z.of_nat i * 1)
              (List.seq 0 (Z.to_nat (Py.range_len lo stop 1)))).
  split_and!.
  - rewrite construct_number_scale_floats. fold lo stop.
    rewrite Hstep by lia. apply range_pos_step. lia.
  - rewrite length_map, length_seq. exact Hlen.
  - intros x Hx. apply in_map_iff in Hx as (i & <- & Hi). apply in_seq in Hi.
    cbn [Py.int]. fold lo. f_equal. lia.
  - intros a b Ea Eb.
    assert (Hab : b < a) by (rewrite Ea, Eb in Hlt; nia).
    assert (Hstop' : stop <= lo).
    { subst stop lo. rewrite Ea, quot_one_mul.
      apply (Z.le_trans _ ((a * Py.one) ÷ Py.one)); [| rewrite quot_one_mul; lia].
      apply Z.quot_le_mono; [lia |].
      apply round_ratio_upper;
        [lia | rewrite <- Ea; apply is_double_elim, Py.double_ok | rewrite Eb; nia]. }
    assert (E : Py.range_len lo stop 1 = 0).
    { unfold Py.range_len. change (0 <? 1) with true. cbv iota.
      destruct (Z.ltb_spec lo stop); [lia | reflexivity]. }
    rewrite E. reflexivity.
  - intros a b Hab Hd. rewrite construct_number_scale_ints by lia.
    rewrite Hstep, range_pos_step by lia.
    unfold Py.range_len. simpl. destruct (Z.ltb_spec a (b + 1)); [lia | reflexivity].
  - intros n quotient Hq. unfold Py.truediv in Hq. simpl in Hq.
    destruct (Py.mk_double _) as [d |] eqn:E; [| discriminate]. injection Hq as <-.
    unfold Py.max, Py.lt.
    destruct (Z.ltb_spec (Py.units d) (1 * Py.one)) as [Hl | Hg].
    + exists 1. split; [reflexivity | lia].
    + exists (Py.units d ÷ Py.one). split; [reflexivity |].
      rewrite Z.quot_div_nonneg by lia. apply Z.div_le_lower_bound; lia.
Qed.

Lemma construct_number_scale_reversed_witness :
  exists options : list Z,
    AdjudicatorFeedbackQuestion.construct_number_scale
      (Py.literal (9 # 10)) (Py.literal (1 # 2)) = Return options
    /\ (length options <= 1)%nat
    /\ (forall x, In x options -> Py.int (Py.literal (9 # 10)) = Return x)
    /\ (forall a b : Z,
          Py.units (Py.literal (9 # 10)) = a * Py.one ->
          Py.units (Py.literal (1 # 2)) = b * Py.one -> options = [])
    /\ (forall a b : Z, b < a -> a - b <= 2 ^ 1025 ->
          AdjudicatorFeedbackQuestion.construct_number_scale (Py.Int a) (Py.Int b) = Return [])
    /\ (forall n quotient, Py.truediv n 10 = Return quotient ->
          exists step, Py.int (Py.max quotient (Py.Int 1)) = Return step /\ 1 <= step).
Proof.
  apply (construct_number_scale_reversed (Py.literal (9 # 10)) (Py.literal (1 # 2))).
  vm_compute. reflexivity.
Defined.

Example construct_number_scale_degenerate :
  AdjudicatorFeedbackQuestion.construct_number_scale
    (Py.literal (9 # 10)) (Py.literal (1 # 2)) = Return [0].
Proof. vm_compute. reflexivity. Qed.

(** C10 (as claimed) fails for numbers whose difference is beyond the float
    range: with a minimum of positive infinity [int(min_value)] raises, and
    with the [int]s [10^400] and [0] the true division raises. In both
    pairs the maximum is below the minimum. *)
Lemma construct_number_scale_overflows :
  Py.lt (Py.literal 0) (Py.Inf false) = true
  /\ AdjudicatorFeedbackQuestion.construct_number_scale (Py.Inf false) (Py.literal 0)
     = Raise OverflowError
  /\ Py.lt (Py.Int 0) (Py.Int (10 ^ 400)) = true
  /\ AdjudicatorFeedbackQuestion.construct_number_scale (Py.Int (10 ^ 400)) (Py.Int 0)
     = Raise OverflowError.
Proof. split_and!; vm_compute; reflexivity. Qed.

End number_scale.

(** ** The answer-type dispatch tables *)

Section answer_type_dispatch.

Import AdjudicatorFeedbackQuestion.

Lemma value_inj (t t' : AnswerType) : value t = value t' -> t = t'.
Proof. destruct t, t'; simpl; intros H; first [reflexivity | discriminate H]. Qed.

Lemma ANSWER_CLASSES_lookup (t : AnswerType) :
  ANSWER_CLASSES !! value t =
    Some match t with
         | BOOLEAN_CHECKBOX | BOOLEAN_SELECT => AdjudicatorFeedbackBooleanAnswer
         | INTEGER_TEXTBOX | INTEGER_SCALE => AdjudicatorFeedbackIntegerAnswer
         | FLOAT => AdjudicatorFeedbackFloatAnswer
         | TEXT | LONGTEXT | SINGLE_SELECT => AdjudicatorFeedbackStringAnswer
         | MULTIPLE_SELECT => AdjudicatorFeedbackManyAnswer
         end.
Proof. destruct t; vm_compute; reflexivity. Qed.

(** C5. [answer_type_class] resolves each of the nine codes through
    [ANSWER_CLASSES] to its table, [ANSWER_CLASSES_REVERSE] lists a type under
    a class exactly when [ANSWER_CLASSES] maps the type's code to that class,
    every type is listed exactly once, and the nine codes are the only keys. *)
Theorem answer_type_dispatch_inverse :
  (forall (q : t) (ty : AnswerType),
      answer_type q = value ty ->
      answer_type_class q =
        Return match ty with
               | BOOLEAN_CHECKBOX | BOOLEAN_SELECT => AdjudicatorFeedbackBooleanAnswer
               | INTEGER_TEXTBOX | INTEGER_SCALE => AdjudicatorFeedbackIntegerAnswer
               | FLOAT => AdjudicatorFeedbackFloatAnswer
               | TEXT | LONGTEXT | SINGLE_SELECT => AdjudicatorFeedbackStringAnswer
               | MULTIPLE_SELECT => AdjudicatorFeedbackManyAnswer
               end)
  /\ (forall cls : AnswerClass, exists tys, reverse_lookup cls = Return tys)
  /\ (forall (ty : AnswerType) (cls : AnswerClass),
        (exists tys, reverse_lookup cls = Return tys /\ In ty tys)
        <-> ANSWER_CLASSES !! value ty = Some cls)
  /\ (forall ty : AnswerType,
        count_occ AnswerType_eq_dec
          (concat (map snd ANSWER_CLASSES_REVERSE)) ty = 1%nat)
  /\ NoDup (map fst ANSWER_CLASSES_REVERSE)
  /\ (forall code : string,
        is_Some (ANSWER_CLASSES !! code) <-> exists ty, code = value ty).
Proof.
  split; [| split; [| split; [| split; [| split]]]].
  - intros q ty Hq. unfold answer_type_class. rewrite Hq, ANSWER_CLASSES_lookup. reflexivity.
  - intros cls. destruct cls; eexists; reflexivity.
  - intros ty cls. rewrite ANSWER_CLASSES_lookup. split.
    + intros (tys & Hrev & Hin).
      destruct cls; inversion Hrev; subst tys; simpl in Hin;
        repeat (destruct Hin as [<- | Hin]; [reflexivity |]); destruct Hin.
    + intros Hcls. destruct cls; eexists; (split; [reflexivity |]);
        destruct ty; inversion Hcls; simpl; tauto.
  - intros ty. destruct ty; reflexivity.
  - compute_done.
  - intros code. split.
    + intros [cls Hcls]. unfold ANSWER_CLASSES in Hcls.
      apply elem_of_list_to_map_2 in Hcls.
      apply list_elem_of_In in Hcls. cbn [In] in Hcls.
      repeat (destruct Hcls as [[= <- <-] | Hcls];
              [solve [exists BOOLEAN_CHECKBOX; reflexivity
                     | exists BOOLEAN_SELECT; reflexivity
                     | exists INTEGER_TEXTBOX; reflexivity
                     | exists INTEGER_SCALE; reflexivity
                     | exists FLOAT; reflexivity
                     | exists TEXT; reflexivity
                     | exists LONGTEXT; reflexivity
                     | exists SINGLE_SELECT; reflexivity
                     | exists MULTIPLE_SELECT; reflexivity] |]).
      destruct Hcls.
    + intros [ty ->]. rewrite ANSWER_CLASSES_lookup. eauto.
Qed.

End answer_type_dispatch.

(** ** Serialization of a question *)

Section serialize.

Import AdjudicatorFeedbackQuestion.


End serialize.

(** ** Answers of a feedback *)

Section answers.

Import AdjudicatorFeedback.

Lemma NoDup_flat_map_disjoint {A B : Type} (f : A -> list B) (l : list A) :
  List.NoDup l ->
  (forall a, In a l -> List.NoDup (f a)) ->
  (forall a1 a2 b, In a1 l -> In a2 l -> In b (f a1) -> In b (f a2) -> a1 = a2) ->
  List.NoDup (flat_map f l).
Proof.
  induction l as [| a l IH]; intros Hl Hf Hdisj; simpl; [constructor |].
  apply List.NoDup_cons_iff in Hl as [Ha Hl].
  apply List.NoDup_app.
  - apply Hf. now left.
  - apply IH; [assumption | intros; apply Hf; now right |].
    intros a1 a2 b H1 H2. apply Hdisj; now right.
  - intros b Hb Hb'. apply in_flat_map in Hb' as (a' & Ha' & Hb').
    assert (a = a') by (apply (Hdisj a a' b); [now left | now right | assumption ..]).
    subst a'. contradiction.
Qed.

Lemma unique_together_questions {A : Type} (rows : list (AdjudicatorFeedbackAnswer A)) (k : Z) :
  unique_together rows ->
  List.NoDup (map question (List.filter (fun r => feedback r =? k) rows)).
Proof.
  unfold unique_together. induction rows as [| r rows IH]; simpl; intros H; [constructor |].
  apply List.NoDup_cons_iff in H as [Hr H].
  destruct (Z.eqb_spec (feedback r) k) as [Hk | Hk]; [| now apply IH].
  simpl. constructor; [| now apply IH].
  intros Hin. apply in_map_iff in Hin as (r' & Hq & Hr').
  apply filter_In in Hr' as [Hr' Hk']. apply Z.eqb_eq in Hk'.
  apply Hr. apply in_map_iff. exists r'. split; [congruence | assumption].
Qed.

Lemma objects_unique_together (db : Database) (cls : AnswerClass) :
  answer_tables_unique db -> unique_together (objects db cls).
Proof.
  intros (Hb & Hi & Hf & Hs & Hm). unfold unique_together in *.
  destruct cls; simpl; rewrite map_map; assumption.
Qed.

Lemma getattr_set_accessor (db : Database) (self : t) (cls : AnswerClass) :
  getattr_set db self (Py.lower (class_name cls) ++ "_set") =
    Return (List.filter (fun r => feedback r =? pk self) (objects db cls)).
Proof. destruct cls; reflexivity. Qed.

Lemma get_answers_loop_flat_map (db : Database) (self : t) (typs : list AnswerClass) :
  get_answers_loop db self typs =
    Return (flat_map
              (fun cls => map answer_dict
                            (List.filter (fun r => feedback r =? pk self) (objects db cls)))
              typs).
Proof.
  induction typs as [| typ typs IH]; simpl; [reflexivity |].
  rewrite getattr_set_accessor. simpl. rewrite IH. reflexivity.
Qed.

Lemma answer_dict_question (r : AdjudicatorFeedbackAnswer pyval) :
  answer_dict r !! "question" = Some (PyRef (question r)).
Proof. reflexivity. Qed.

Lemma NoDup_map_injective {A B : Type} (f : A -> B) (l : list A) :
  (forall x y, f x = f y -> x = y) -> List.NoDup l -> List.NoDup (map f l).
Proof.
  intros Hinj. induction 1 as [| x l Hx Hl IH]; simpl; constructor; [| assumption].
  intros Hin. apply in_map_iff in Hin as (y & Hy & Hin).
  apply Hinj in Hy. subst y. contradiction.
Qed.

Lemma question_keys (db : Database) (self : t) (typs : list AnswerClass) :
  map (fun e : gmap string pyval => e !! "question")
      (flat_map (fun cls => map answer_dict
                   (List.filter (fun r => feedback r =? pk self) (objects db cls))) typs)
  = map (fun q => Some (PyRef q))
      (flat_map (fun cls => map question
                   (List.filter (fun r => feedback r =? pk self) (objects db cls))) typs).
Proof.
  induction typs as [| typ typs IH]; simpl; [reflexivity |].
  rewrite !map_app, !map_map, IH. reflexivity.
Qed.

(** C4. [get_answers] returns the concatenation, over the five answer tables
    in the key order of [ANSWER_CLASSES_REVERSE], of one question/answer
    dictionary per row that references the feedback. When every table
    satisfies its [unique_together] constraint and no question of this
    feedback is answered in two tables, the questions of the entries are
    pairwise distinct and are exactly the questions with a stored answer. *)
Theorem get_answers_one_entry_per_question (db : Database) (self : t) :
  answer_tables_unique db ->
  (forall cls1 cls2 r1 r2,
      In r1 (objects db cls1) -> In r2 (objects db cls2) ->
      feedback r1 = pk self -> feedback r2 = pk self ->
      question r1 = question r2 -> cls1 = cls2) ->
  exists answers : list (gmap string pyval),
    get_answers db self = Return answers
    /\ answers =
         flat_map
           (fun cls => map answer_dict
                         (List.filter (fun r => feedback r =? pk self) (objects db cls)))
           [AdjudicatorFeedbackStringAnswer; AdjudicatorFeedbackManyAnswer;
            AdjudicatorFeedbackIntegerAnswer; AdjudicatorFeedbackFloatAnswer;
            AdjudicatorFeedbackBooleanAnswer]
    /\ (forall e, In e answers <->
          exists cls r, In r (objects db cls) /\ feedback r = pk self
                        /\ e = <["answer" := answer r]> (<["question" := PyRef (question r)]> ∅))
    /\ List.NoDup (map (fun e : gmap string pyval => e !! "question") answers)
    /\ (forall q, In (Some (PyRef q)) (map (fun e : gmap string pyval => e !! "question") answers)
          <-> exists cls r, In r (objects db cls) /\ feedback r = pk self /\ question r = q).
Proof.
  intros Huniq Hone.
  set (classes := [AdjudicatorFeedbackStringAnswer; AdjudicatorFeedbackManyAnswer;
                   AdjudicatorFeedbackIntegerAnswer; AdjudicatorFeedbackFloatAnswer;
                   AdjudicatorFeedbackBooleanAnswer]).
  exists (flat_map (fun cls => map answer_dict
            (List.filter (fun r => feedback r =? pk self) (objects db cls))) classes).
  split; [apply (get_answers_loop_flat_map db self classes) |].
  split; [reflexivity |].
  assert (Hall : forall cls, In cls classes) by (intros []; simpl; tauto).
  assert (Hin : forall e,
             In e (flat_map (fun cls => map answer_dict
                      (List.filter (fun r => feedback r =? pk self) (objects db cls))) classes)
             <-> exists cls r, In r (objects db cls) /\ feedback r = pk self
                               /\ e = answer_dict r).
  { intros e. rewrite in_flat_map. split.
    - intros (cls & _ & He). apply in_map_iff in He as (r & <- & Hr).
      apply filter_In in Hr as [Hr Hk]. apply Z.eqb_eq in Hk. eauto.
    - intros (cls & r & Hr & Hk & ->). exists cls. split; [apply Hall |].
      apply in_map. apply filter_In. split; [assumption | now apply Z.eqb_eq]. }
  split; [exact Hin |]. split.
  - rewrite question_keys. apply NoDup_map_injective; [intros x y [= ->]; reflexivity |].
    apply NoDup_flat_map_disjoint.
    + subst classes. repeat constructor; simpl; intuition discriminate.
    + intros cls _. apply unique_together_questions, objects_unique_together, Huniq.
    + intros cls1 cls2 q _ _ H1 H2.
      apply in_map_iff in H1 as (r1 & Hq1 & Hr1). apply in_map_iff in H2 as (r2 & Hq2 & Hr2).
      apply filter_In in Hr1 as [Hr1 Hk1]. apply filter_In in Hr2 as [Hr2 Hk2].
      apply Z.eqb_eq in Hk1, Hk2. apply (Hone cls1 cls2 r1 r2); congruence.
  - intros q. rewrite in_map_iff. split.
    + intros (e & He & Hine). apply Hin in Hine as (cls & r & Hr & Hk & ->).
      rewrite answer_dict_question in He. injection He as <-. eauto.
    + intros (cls & r & Hr & Hk & <-). exists (answer_dict r). split; [reflexivity |].
      apply Hin. eauto.
Qed.

End answers.

(** ** Derived properties, uniqueness key and validation of a feedback *)

Section feedback_properties.

Import AdjudicatorFeedback.

(** Unfolding one monadic step. *)
Lemma bind_unfold {A B : Type} (m : method A) (f : A -> method B) (self : t) :
  (m ≫= f) self =
    match m self with
    | (Return a, self') => f a self'
    | (Raise e, self') => (Raise e, self')
    end.
Proof. reflexivity. Qed.

Lemma debate_unfold (self : t) :
  debate self =
    match cached_debate (attrs self) with
    | Some d => (Return d, self)
    | None =>
        let d := match source_adjudicator self with
                 | Some sa => Some (DebateAdjudicator.debate sa)
                 | None => match source_team self with
                           | Some st => Some (DebateTeam.debate st)
                           | None => None
                           end
                 end in
        (Return d, with_attrs (set_cached_debate d) self)
    end.
Proof.
  unfold debate, cached_property.
  destruct (cached_debate (attrs self)); [reflexivity |].
  rewrite bind_unfold. unfold attr.
  destruct (source_adjudicator self); [reflexivity |].
  rewrite bind_unfold. destruct (source_team self); reflexivity.
Qed.

Lemma debate_returns (self : t) : exists d, fst (debate self) = Return d.
Proof.
  rewrite debate_unfold. destruct (cached_debate (attrs self)); eexists; reflexivity.
Qed.

Lemma debate_idempotent (self self' : t) (d : option Debate.t) :
  debate self = (Return d, self') -> debate self' = (Return d, self').
Proof.
  rewrite !debate_unfold.
  destruct (cached_debate (attrs self)) as [c |] eqn:Hc.
  - intros [= <- <-]. rewrite Hc. reflexivity.
  - cbv zeta. intros [= <- <-]. reflexivity.
Qed.

Lemma debate_coherent (self : t) :
  coherent self ->
  fst (debate self) =
    Return match source_adjudicator self with
           | Some sa => Some (DebateAdjudicator.debate sa)
           | None => match source_team self with
                     | Some st => Some (DebateTeam.debate st)
                     | None => None
                     end
           end.
Proof.
  intros [Hd _]. rewrite debate_unfold.
  destruct (cached_debate (attrs self)) as [c |] eqn:Hc; [| reflexivity].
  specialize (Hd c eq_refl). rewrite debate_unfold in Hd. simpl in *. congruence.
Qed.

Lemma round_unfold (self : t) :
  round self =
    match debate self with
    | (Return (Some d), self') => (Return (Debate.round d), self')
    | (Return None, self') => (Raise AttributeError, self')
    | (Raise e, self') => (Raise e, self')
    end.
Proof.
  unfold round. rewrite bind_unfold.
  destruct (debate self) as [[[d |] | e] self']; reflexivity.
Qed.

Lemma feedback_weight_first_read (self : t) (d : Debate.t) :
  cached_feedback_weight (attrs self) = None ->
  fst (debate self) = Return (Some d) ->
  fst (feedback_weight self) =
    Return match Debate.round d with
           | Some r => Round.feedback_weight r
           | None => 1%Q
           end.
Proof.
  intros Hw Hd. unfold feedback_weight, cached_property. rewrite Hw.
  rewrite bind_unfold, round_unfold.
  destruct (debate self) as [r self'] eqn:E. simpl in Hd. subst r.
  destruct (Debate.round d) as [r |] eqn:Hr; [| reflexivity].
  rewrite bind_unfold, round_unfold, (debate_idempotent _ _ _ E), Hr. reflexivity.
Qed.

(** C8. On an instance whose cached values are coherent with its fields,
    [feedback_weight] is the feedback weight of the round of the debate of
    whichever source is set (the source adjudicator first), and 1 when that
    debate has no round. *)
Theorem feedback_weight_of_round (self : t) :
  coherent self ->
  (forall sa, source_adjudicator self = Some sa ->
     fst (feedback_weight self) =
       Return match Debate.round (DebateAdjudicator.debate sa) with
              | Some r => Round.feedback_weight r
              | None => 1%Q
              end)
  /\ (forall st, source_adjudicator self = None -> source_team self = Some st ->
        fst (feedback_weight self) =
          Return match Debate.round (DebateTeam.debate st) with
                 | Some r => Round.feedback_weight r
                 | None => 1%Q
                 end)
  /\ (forall r, fst (round self) = Return (Some r) ->
        fst (feedback_weight self) = Return (Round.feedback_weight r))
  /\ (fst (round self) = Return None -> fst (feedback_weight self) = Return 1%Q).
Proof.
  intros Hco.
  assert (Hgen : forall d, fst (debate self) = Return (Some d) ->
            fst (feedback_weight self) =
              Return match Debate.round d with
                     | Some r => Round.feedback_weight r
                     | None => 1%Q
                     end).
  { intros d Hd.
    destruct (cached_feedback_weight (attrs self)) as [w |] eqn:Hw.
    - unfold feedback_weight at 1, cached_property. rewrite Hw. simpl.
      pose proof (debate_coherent self Hco) as Hsrc.
      destruct Hco as [_ Hfw]. rewrite <- (Hfw w Hw).
      apply feedback_weight_first_read; [reflexivity |].
      rewrite debate_unfold. simpl. congruence.
    - apply feedback_weight_first_read; assumption. }
  pose proof (debate_coherent self Hco) as Hd.
  split_and!.
  - intros sa Hsa. apply Hgen. rewrite Hd, Hsa. reflexivity.
  - intros st Hsa Hst. apply Hgen. rewrite Hd, Hsa, Hst. reflexivity.
  - intros r. rewrite round_unfold.
    destruct (debate self) as [[[d |] | e] self'] eqn:E; simpl; intros [= Hr].
    rewrite (Hgen d eq_refl). rewrite Hr. reflexivity.
  - rewrite round_unfold.
    destruct (debate self) as [[[d |] | e] self'] eqn:E; simpl; intros [= Hr].
    rewrite (Hgen d eq_refl). rewrite Hr. reflexivity.
Qed.

Lemma uncached_coherent (self : t) : coherent (uncached self).
Proof. split; intros x H; discriminate H. Qed.

Lemma debate_snd (self : t) :
  snd (debate self) = self
  \/ exists d, snd (debate self) = with_attrs (set_cached_debate d) self
               /\ fst (debate (uncached self)) = Return d.
Proof.
  rewrite !debate_unfold. destruct (cached_debate (attrs self)); [now left |].
  right. eexists. split; reflexivity.
Qed.

Lemma debate_preserves_coherent (self : t) :
  coherent self -> coherent (snd (debate self)).
Proof.
  intros Hco. destruct (debate_snd self) as [-> | (d & -> & Hd)]; [assumption |].
  destruct Hco as [_ Hfw]. split.
  - simpl. intros ? [= <-]. exact Hd.
  - simpl. exact Hfw.
Qed.

Lemma feedback_weight_preserves_coherent (self : t) :
  coherent self -> coherent (snd (feedback_weight self)).
Proof.
  intros Hco. pose proof (debate_preserves_coherent self Hco) as Hco1.
  pose proof (debate_coherent self Hco) as Hsrc.
  unfold feedback_weight at 1, cached_property.
  destruct (cached_feedback_weight (attrs self)) as [w |] eqn:Hw; [assumption |].
  rewrite bind_unfold, round_unfold.
  destruct (debate self) as [r s1] eqn:E. simpl in Hco1, Hsrc. subst r.
  assert (Hs1 : uncached s1 = uncached self).
  { destruct (debate_snd self) as [H | (d & H & _)]; rewrite E in H; simpl in H;
      rewrite H; reflexivity. }
  assert (Hstore : forall d w0,
            match source_adjudicator self with
            | Some sa => Some (DebateAdjudicator.debate sa)
            | None => match source_team self with
                      | Some st => Some (DebateTeam.debate st)
                      | None => None
                      end
            end = Some d ->
            w0 = match Debate.round d with
                 | Some r => Round.feedback_weight r
                 | None => 1%Q
                 end ->
            coherent (with_attrs (set_cached_feedback_weight w0) s1)).
  { intros d w0 Hd ->. destruct Hco1 as [Hd1 _]. split.
    - exact Hd1.
    - simpl. intros ? [= <-]. change (uncached (with_attrs (set_cached_feedback_weight
        match Debate.round d with Some r => Round.feedback_weight r | None => 1%Q end) s1))
        with (uncached s1). rewrite Hs1.
      apply feedback_weight_first_read; [reflexivity |].
      rewrite debate_unfold. simpl. f_equal. exact Hd. }
  destruct (match source_adjudicator self with
            | Some sa => Some (DebateAdjudicator.debate sa)
            | None => match source_team self with
                      | Some st => Some (DebateTeam.debate st)
                      | None => None
                      end
            end) as [d |] eqn:Hd; [| assumption].
  destruct (Debate.round d) as [r |] eqn:Hr.
  - rewrite bind_unfold, round_unfold, (debate_idempotent _ _ _ E), Hr. simpl.
    apply (Hstore d); [reflexivity | rewrite Hr; reflexivity].
  - simpl. apply (Hstore d); [reflexivity | rewrite Hr; reflexivity].
Qed.

Lemma cached_property_stored {A : Type}
    (stored : lazy_attrs -> option A) (store : A -> lazy_attrs -> lazy_attrs)
    (func func' : method A) (self self' : t) (v : A) :
  (forall x a, stored (store x a) = Some x) ->
  cached_property stored store func self = (Return v, self') ->
  cached_property stored store func' self' = (Return v, self').
Proof.
  intros Hstore. unfold cached_property.
  destruct (stored (attrs self)) as [c |] eqn:Hc.
  - intros [= <- <-]. rewrite Hc. reflexivity.
  - destruct (func self) as [[x | e] s1]; intros [= <- <-].
    simpl. rewrite Hstore. reflexivity.
Qed.

(** C9. On an instance with a resolvable debate and a target adjudicator,
    the first read of [debate_adjudicator] yields the seat record of the
    target adjudicator in that debate when the query finds it, and [None],
    without raising, when the query finds no row. A value once returned is
    stored: every later read returns it, whatever the table then holds. *)
Theorem debate_adjudicator_seat (db : Database) (self : t)
    (adj : Adjudicator.t) (d : Debate.t) :
  _debateadj (attrs self) = None ->
  cached_debate_adjudicator (attrs self) = None ->
  adjudicator self = Some adj ->
  fst (debate self) = Return (Some d) ->
  (forall seat, debateadjudicator_set_filter db adj (Some d) = [seat] ->
     fst (debate_adjudicator db self) = Return (Some seat))
  /\ (debateadjudicator_set_filter db adj (Some d) = [] ->
      fst (debate_adjudicator db self) = Return None)
  /\ (forall v self', debate_adjudicator db self = (Return v, self') ->
      forall db', debate_adjudicator db' self' = (Return v, self')).
Proof.
  intros Hattr Hcache Hadj Hd.
  assert (Hrun : forall rows,
            debateadjudicator_set_filter db adj (Some d) = rows ->
            fst (debate_adjudicator db self) =
              match rows with
              | [] => Return None
              | [seat] => Return (Some seat)
              | _ => Raise MultipleObjectsReturned
              end).
  { intros rows Hrows.
    unfold debate_adjudicator, cached_property. rewrite Hcache.
    unfold mbind, method_bind, attr, try_except_DoesNotExist, call, setattr, raise.
    rewrite Hattr, Hadj.
    destruct (debate self) as [r s1] eqn:E. simpl in Hd. subst r.
    rewrite Hrows. destruct rows as [| seat [| seat' rows]]; reflexivity. }
  split_and!.
  - intros seat Hrows. apply (Hrun _ Hrows).
  - intros Hrows. apply (Hrun _ Hrows).
  - intros v self' Hrun' db'. unfold debate_adjudicator in *.
    eapply cached_property_stored; [| exact Hrun']. reflexivity.
Qed.

Context {base : Submission}.

Lemma clean_unfold (self : t) :
  clean self =
    match source_adjudicator self, source_team self with
    | None, None =>
        (Raise (ValidationError
                  "Either the source adjudicator or source team wasn't specified."), self)
    | Some _, Some _ =>
        (Raise (ValidationError "There was both a source adjudicator and a source team."),
         self)
    | _, _ =>
        match adjudicator self with
        | None => (Raise AttributeError, self)
        | Some adj =>
            match debate self with
            | (Return (Some d), self') =>
                if Py.contains Adjudicator.eqb adj (Debate.adjudicators d)
                then (Submission_clean self', self')
                else (Raise (ValidationError "Adjudicator did not see this debate."), self')
            | (Return None, self') => (Raise AttributeError, self')
            | (Raise e, self') => (Raise e, self')
            end
        end
    end.
Proof.
  destruct self as [pk0 ver adj sc sa st ign lazy].
  unfold clean, mbind, method_bind, attr, raise, query.
  generalize debate; intros deb.
  destruct sa, st, adj; cbn; try reflexivity.
  all: destruct (deb _) as [[[d |] | e] self']; try reflexivity.
  all: destruct (Py.contains Adjudicator.eqb _ (Debate.adjudicators d)); reflexivity.
Qed.

(** C1 (as the code has it). [clean] raises a validation error when no
    source is set, when both are set, and when the target adjudicator is set
    but is not on the panel of the feedback's debate. A feedback with one
    source and a target on the panel passes these checks and is handed to
    the base class: [clean] returns what [Submission.clean] returns. *)
Theorem clean_rules (self : t) :
  (source_adjudicator self = None -> source_team self = None ->
   fst (clean self) =
     Raise (ValidationError "Either the source adjudicator or source team wasn't specified."))
  /\ (source_adjudicator self <> None -> source_team self <> None ->
      fst (clean self) =
        Raise (ValidationError "There was both a source adjudicator and a source team."))
  /\ (forall adj d,
        adjudicator self = Some adj ->
        fst (debate self) = Return (Some d) ->
        Py.contains Adjudicator.eqb adj (Debate.adjudicators d) = false ->
        exists msg, fst (clean self) = Raise (ValidationError msg))
  /\ (forall adj d,
        exactly_one_source self ->
        adjudicator self = Some adj ->
        fst (debate self) = Return (Some d) ->
        Py.contains Adjudicator.eqb adj (Debate.adjudicators d) = false ->
        fst (clean self) = Raise (ValidationError "Adjudicator did not see this debate."))
  /\ (forall adj d,
        exactly_one_source self ->
        adjudicator self = Some adj ->
        fst (debate self) = Return (Some d) ->
        Py.contains Adjudicator.eqb adj (Debate.adjudicators d) = true ->
        fst (clean self) = Submission_clean (snd (debate self))).
Proof.
  rewrite clean_unfold. unfold exactly_one_source. split_and!.
  - intros -> ->. reflexivity.
  - intros Hsa Hst.
    destruct (source_adjudicator self), (source_team self);
      first [reflexivity | congruence].
  - intros adj d -> Hd Hin.
    destruct (debate self) as [[dv | e] self']; simpl in Hd; [| discriminate].
    injection Hd as ->. rewrite Hin.
    destruct (source_adjudicator self), (source_team self); eexists; reflexivity.
  - intros adj d Hone -> Hd Hin.
    destruct (debate self) as [[dv | e] self']; simpl in Hd; [| discriminate].
    injection Hd as ->. rewrite Hin.
    destruct (source_adjudicator self), (source_team self); try reflexivity;
      exfalso; intuition congruence.
  - intros adj d Hone -> Hd Hin.
    destruct (debate self) as [[dv | e] self']; simpl in Hd; [| discriminate].
    injection Hd as ->. rewrite Hin.
    destruct (source_adjudicator self), (source_team self); try reflexivity;
      exfalso; intuition congruence.
Qed.

(** C2. A feedback that [clean] accepts has exactly one of
    [source_adjudicator] and [source_team] set. *)
Theorem clean_accepts_one_source (self : t) :
  fst (clean self) = Return tt -> exactly_one_source self.
Proof.
  rewrite clean_unfold. unfold exactly_one_source.
  destruct (source_adjudicator self), (source_team self); simpl; intros H;
    first [discriminate H | left; split; congruence | right; split; congruence].
Qed.

(** C7. When the base class returns a key that holds ['adjudicator'], and
    the source team's debate has a round, [_unique_unconfirm_args] returns
    the base key without ['adjudicator'] exactly when the source team is set
    and the tournament preference ['feedback_from_teams'] is ['orallist'];
    otherwise it returns the base key unchanged, target adjudicator included. *)
Theorem unique_unconfirm_args_oral_list (self : t) (kwargs : gmap string pyval) :
  Submission__unique_unconfirm_args self = Return kwargs ->
  is_Some (kwargs !! "adjudicator") ->
  (forall st, source_team self = Some st -> Debate.round (DebateTeam.debate st) <> None) ->
  let team_oral_list :=
    exists st r,
      source_team self = Some st
      /\ Debate.round (DebateTeam.debate st) = Some r
      /\ Tournament.pref (Round.tournament r) "feedback_from_teams" = "orallist" in
  exists key : gmap string pyval,
    _unique_unconfirm_args self = (Return key, self)
    /\ (team_oral_list <-> key = delete "adjudicator" kwargs)
    /\ (team_oral_list <-> key !! "adjudicator" = None)
    /\ (~ team_oral_list -> key = kwargs /\ key !! "adjudicator" = kwargs !! "adjudicator").
Proof.
  intros Hbase [v Hv] Hround team_oral_list. subst team_oral_list.
  assert (Hne : delete "adjudicator" kwargs <> kwargs).
  { intros E. rewrite <- E in Hv. rewrite lookup_delete_eq in Hv. discriminate. }
  unfold _unique_unconfirm_args, mbind, method_bind, query, attr, call, raise, Py.pop.
  rewrite Hbase.
  destruct (source_team self) as [st |] eqn:Hst.
  - specialize (Hround st eq_refl).
    destruct (Debate.round (DebateTeam.debate st)) as [r |] eqn:Hr; [| congruence].
    destruct (String.eqb_spec (Tournament.pref (Round.tournament r) "feedback_from_teams")
                              "orallist") as [Hp | Hp].
    + rewrite Hv. cbn. eexists. split; [reflexivity |].
      assert (exists st0 r0, Some st = Some st0
                /\ Debate.round (DebateTeam.debate st0) = Some r0
                /\ Tournament.pref (Round.tournament r0) "feedback_from_teams" = "orallist")
        by (exists st, r; auto).
      split_and!; [tauto | | tauto].
      split; [intros _; apply lookup_delete_eq | tauto].
    + eexists. split; [reflexivity |].
      assert (Hno : ~ exists st0 r0, Some st = Some st0
                /\ Debate.round (DebateTeam.debate st0) = Some r0
                /\ Tournament.pref (Round.tournament r0) "feedback_from_teams" = "orallist").
      { intros (st0 & r0 & [= <-] & Hr0 & Hp0). congruence. }
      split_and!.
      * split; [tauto | intros E; symmetry in E; contradiction].
      * split; [tauto | congruence].
      * auto.
  - eexists. split; [reflexivity |].
    assert (Hno : ~ exists st0 r0, @None DebateTeam.t = Some st0
              /\ Debate.round (DebateTeam.debate st0) = Some r0
              /\ Tournament.pref (Round.tournament r0) "feedback_from_teams" = "orallist").
    { intros (st0 & r0 & [=] & _). }
    split_and!.
    + split; [tauto | intros E; symmetry in E; contradiction].
    + split; [tauto | congruence].
    + auto.
Qed.

Lemma clean_preserves_coherent (self : t) :
  coherent self -> coherent (snd (clean self)).
Proof.
  intros Hco. pose proof (debate_preserves_coherent self Hco) as Hco1.
  rewrite clean_unfold.
  destruct (source_adjudicator self), (source_team self), (adjudicator self);
    try assumption.
  all: destruct (debate self) as [[[d |] | e] s1]; try assumption.
  all: destruct (Py.contains _ _ _); assumption.
Qed.

End feedback_properties.

(** ** The sample debate *)

Section sample_runs.

Import AdjudicatorFeedback.

Example clean_accepts_team_feedback :
  fst (clean (base := Sample.lenient) Sample.from_team) = Return tt.
Proof. reflexivity. Qed.

Example clean_rejects_absent_target :
  fst (clean (base := Sample.lenient) Sample.on_absent)
  = Raise (ValidationError "Adjudicator did not see this debate.").
Proof. reflexivity. Qed.

(** C1 (as claimed) fails when the base class has a rule of its own: the
    team's feedback on Alice has one source and a target on the panel, and
    [clean] still raises, with the error of [Submission.clean]. *)
Lemma clean_raises_base_error :
  exactly_one_source Sample.from_team
  /\ adjudicator Sample.from_team = Some Sample.alice
  /\ fst (debate Sample.from_team) = Return (Some Sample.debate)
  /\ Py.contains Adjudicator.eqb Sample.alice (Debate.adjudicators Sample.debate) = true
  /\ fst (clean (base := Sample.strict) Sample.from_team)
     = Raise (ValidationError "A tab room ballot must have a user associated.").
Proof.
  split_and!; try reflexivity.
  right. split; [reflexivity | discriminate].
Qed.

Lemma clean_accepts_one_source_witness :
  fst (clean (base := Sample.lenient) Sample.from_team) = Return tt
  /\ exactly_one_source Sample.from_team.
Proof.
  split; [reflexivity |].
  apply (clean_accepts_one_source (base := Sample.lenient) Sample.from_team).
  reflexivity.
Defined.

Example get_answers_team_feedback :
  get_answers Sample.db Sample.from_team
  = Return [ <["answer" := PyStr "Clear"]> (<["question" := PyRef 3]> ∅);
             <["answer" := PyInt 7]> (<["question" := PyRef 2]> ∅);
             <["answer" := PyBool true]> (<["question" := PyRef 1]> ∅) ].
Proof. reflexivity. Qed.

Lemma get_answers_one_entry_per_question_witness :
  exists answers : list (gmap string pyval),
    get_answers Sample.db Sample.from_team = Return answers
    /\ answers =
         flat_map
           (fun cls => map answer_dict
                         (List.filter (fun r => feedback r =? pk Sample.from_team)
                                      (objects Sample.db cls)))
           [AdjudicatorFeedbackStringAnswer; AdjudicatorFeedbackManyAnswer;
            AdjudicatorFeedbackIntegerAnswer; AdjudicatorFeedbackFloatAnswer;
            AdjudicatorFeedbackBooleanAnswer]
    /\ (forall e, In e answers <->
          exists cls r, In r (objects Sample.db cls) /\ feedback r = pk Sample.from_team
                        /\ e = <["answer" := answer r]> (<["question" := PyRef (question r)]> ∅))
    /\ List.NoDup (map (fun e : gmap string pyval => e !! "question") answers)
    /\ (forall q, In (Some (PyRef q)) (map (fun e : gmap string pyval => e !! "question") answers)
          <-> exists cls r, In r (objects Sample.db cls) /\ feedback r = pk Sample.from_team
                            /\ question r = q).
Proof.
  apply (get_answers_one_entry_per_question Sample.db Sample.from_team).
  - unfold answer_tables_unique, unique_together; simpl.
    split_and!; repeat constructor; simpl; intuition discriminate.
  - intros cls1 cls2 r1 r2 H1 H2 Hf1 Hf2 Hq.
    destruct cls1, cls2; try reflexivity; simpl in H1, H2;
      intuition (subst; simpl in *; discriminate).
Defined.

Example unique_unconfirm_args_team_oral_list :
  fst (_unique_unconfirm_args (base := Sample.lenient) Sample.from_team)
  = Return (<["source_adjudicator" := PyNone]> (<["source_team" := PyRef 1]> ∅)).
Proof. reflexivity. Qed.

Lemma unique_unconfirm_args_oral_list_witness :
  exists key : gmap string pyval,
    _unique_unconfirm_args (base := Sample.lenient) Sample.from_team
    = (Return key, Sample.from_team)
    /\ ((exists st r,
           source_team Sample.from_team = Some st
           /\ Debate.round (DebateTeam.debate st) = Some r
           /\ Tournament.pref (Round.tournament r) "feedback_from_teams" = "orallist")
        <-> key = delete "adjudicator" (Sample.unique_filter_args Sample.from_team))
    /\ ((exists st r,
           source_team Sample.from_team = Some st
           /\ Debate.round (DebateTeam.debate st) = Some r
           /\ Tournament.pref (Round.tournament r) "feedback_from_teams" = "orallist")
        <-> key !! "adjudicator" = None)
    /\ (~ (exists st r,
           source_team Sample.from_team = Some st
           /\ Debate.round (DebateTeam.debate st) = Some r
           /\ Tournament.pref (Round.tournament r) "feedback_from_teams" = "orallist")
        -> key = Sample.unique_filter_args Sample.from_team
           /\ key !! "adjudicator" = Sample.unique_filter_args Sample.from_team !! "adjudicator").
Proof.
  apply (unique_unconfirm_args_oral_list (base := Sample.lenient) Sample.from_team
           (Sample.unique_filter_args Sample.from_team)).
  - reflexivity.
  - eexists; reflexivity.
  - intros st [= <-]. discriminate.
Defined.

Lemma feedback_weight_of_round_witness :
  fst (feedback_weight Sample.from_team) = Return (1 # 2)%Q
  /\ fst (feedback_weight Sample.from_adjudicator) = Return (1 # 2)%Q.
Proof.
  assert (Hteam : coherent Sample.from_team) by (split; intros x H; discriminate H).
  assert (Hadj : coherent Sample.from_adjudicator) by (split; intros x H; discriminate H).
  split.
  - apply (proj1 (proj2 (feedback_weight_of_round Sample.from_team Hteam)) Sample.team);
      reflexivity.
  - apply (proj1 (feedback_weight_of_round Sample.from_adjudicator Hadj) Sample.seat_bob);
      reflexivity.
Defined.

Lemma debate_adjudicator_seat_witness :
  fst (debate_adjudicator Sample.db Sample.from_adjudicator) = Return (Some Sample.seat_alice)
  /\ fst (debate_adjudicator Sample.db_without_seats Sample.from_adjudicator) = Return None
  /\ fst (debate_adjudicator Sample.db_without_seats
            (snd (debate_adjudicator Sample.db Sample.from_adjudicator)))
     = Return (Some Sample.seat_alice).
Proof.
  split_and!.
  - apply (proj1 (debate_adjudicator_seat Sample.db Sample.from_adjudicator
                    Sample.alice Sample.debate eq_refl eq_refl eq_refl eq_refl)).
    reflexivity.
  - apply (proj1 (proj2 (debate_adjudicator_seat Sample.db_without_seats
                           Sample.from_adjudicator Sample.alice Sample.debate
                           eq_refl eq_refl eq_refl eq_refl))).
    reflexivity.
  - rewrite (proj2 (proj2 (debate_adjudicator_seat Sample.db Sample.from_adjudicator
                             Sample.alice Sample.debate eq_refl eq_refl eq_refl eq_refl))
               (Some Sample.seat_alice)
               (snd (debate_adjudicator Sample.db Sample.from_adjudicator))
               eq_refl Sample.db_without_seats).
    reflexivity.
Defined.

End sample_runs.

(** ** More on the number scale *)

Section number_scale_shape.

Lemma progression_nth_error (lo step : Z) (n i : nat) (x : Z) :
  nth_error (map (fun k : nat => lo + Z.of_nat k * step) (List.seq 0 n)) i = Some x
  <-> (i < n)%nat /\ x = lo + Z.of_nat i * step.
Proof.
  rewrite nth_error_map, nth_error_seq.
  destruct (Nat.ltb_spec i n) as [Hi | Hi]; simpl.
  - split; [intros [= <-]; auto | intros [_ ->]; reflexivity].
  - split; [discriminate | lia].
Qed.

(** X1. For finite float bounds the call returns a list that climbs by the
    same positive step, the integer part of
    [max((int(max_value) - int(min_value)) / 10, 1)]: each element is its
    predecessor plus that step, so the scale is strictly increasing and
    offers no value twice. *)
Theorem construct_number_scale_strictly_increasing (min_value max_value : Py.double) :
  exists (options : list Z) (top bottom : Z) (quotient : Py.number) (step : Z),
    AdjudicatorFeedbackQuestion.construct_number_scale min_value max_value = Return options
    /\ Py.int max_value = Return top
    /\ Py.int min_value = Return bottom
    /\ Py.truediv (top - bottom) 10 = Return quotient
    /\ Py.int (Py.max quotient (Py.Int 1)) = Return step
    /\ 1 <= step
    /\ (forall i x y,
          nth_error options i = Some x -> nth_error options (S i) = Some y ->
          y = x + step)
    /\ (forall i j x y,
          (i < j)%nat -> nth_error options i = Some x -> nth_error options j = Some y ->
          x < y)
    /\ List.NoDup options.
Proof.
  pose proof (int_double_bound min_value) as Hlo.
  pose proof (int_double_bound max_value) as Hhi.
  set (top := Py.units max_value ÷ Py.one) in *.
  set (bottom := Py.units min_value ÷ Py.one) in *.
  destruct (truediv_finite (top - bottom)) as (q & Eq & Hq).
  { assert (2 ^ 1025 = 2 * 2 ^ 1024)
      by (change 2 with (2 ^ 1) at 2; rewrite <- Z.pow_add_r by lia; reflexivity).
    lia. }
  pose proof (step_general (top - bottom)) as Hstep.
  set (step := if Py.round_ratio ((top - bottom) * Py.one) 10 <? 1 * Py.one then 1
               else Py.round_ratio ((top - bottom) * Py.one) 10 ÷ Py.one) in *.
  set (n := Z.to_nat (Py.range_len bottom
                        (Py.round_ratio (Py.units max_value + Py.one) 1 ÷ Py.one) step)).
  exists (map (fun k : nat => bottom + Z.of_nat k * step) (List.seq 0 n)), top, bottom, q, step.
  assert (Hlt : forall i j x y,
             (i < j)%nat ->
             nth_error (map (fun k : nat => bottom + Z.of_nat k * step) (List.seq 0 n)) i
               = Some x ->
             nth_error (map (fun k : nat => bottom + Z.of_nat k * step) (List.seq 0 n)) j
               = Some y ->
             x < y).
  { intros i j x y Hij Hx Hy.
    apply progression_nth_error in Hx as [_ ->]. apply progression_nth_error in Hy as [_ ->].
    nia. }
  split_and!.
  - rewrite construct_number_scale_floats. fold top bottom step.
    apply range_pos_step. lia.
  - reflexivity.
  - reflexivity.
  - exact Eq.
  - unfold Py.max, Py.lt. rewrite Hq. subst step.
    destruct (_ <? _); cbn [Py.int]; rewrite ?Hq; reflexivity.
  - exact Hstep.
  - intros i x y Hx Hy.
    apply progression_nth_error in Hx as [_ ->]. apply progression_nth_error in Hy as [_ ->].
    lia.
  - exact Hlt.
  - apply NoDup_nth_error. intros i j Hi Hij.
    destruct (nth_error _ i) as [x |] eqn:Hx; [| apply nth_error_Some in Hi; contradiction].
    symmetry in Hij.
    destruct (Nat.lt_trichotomy i j) as [H | [H | H]]; [| assumption |].
    + pose proof (Hlt i j x x H Hx Hij). lia.
    + pose proof (Hlt j i x x H Hij Hx). lia.
Qed.

(** X2. For finite float bounds [min_value <= max_value] between [-2^51]
    and [2^51] the scale starts at [int(min_value)], climbs by
    [max((int(max_value) - int(min_value)) // 10, 1)] and holds exactly the
    terms below [int(max_value + 1)]. The sum is rounded, so that stop is
    [int(max_value) + 1] or [int(max_value) + 2] for a non-negative
    maximum, and [int(max_value)] or [int(max_value) + 1] for a negative
    one: the scale never exceeds [int(max_value) + 1]. *)
Theorem construct_number_scale_between_floats (min_value max_value : Py.double) :
  - 2 ^ 51 * Py.one <= Py.units min_value ->
  Py.units min_value <= Py.units max_value ->
  Py.units max_value <= 2 ^ 51 * Py.one ->
  exists (options : list Z) (bottom top stop : Z),
    AdjudicatorFeedbackQuestion.construct_number_scale min_value max_value = Return options
    /\ Py.int min_value = Return bottom
    /\ Py.int max_value = Return top
    /\ Py.int (Py.add_one max_value) = Return stop
    /\ (0 <= Py.units max_value -> top + 1 <= stop <= top + 2)
    /\ (Py.units max_value < 0 -> top <= stop <= top + 1)
    /\ options = map (fun i : nat => bottom + Z.of_nat i * Z.max ((top - bottom) / 10) 1)
                     (List.seq 0 (Z.to_nat (Py.range_len bottom stop
                                              (Z.max ((top - bottom) / 10) 1))))
    /\ (forall x, In x options -> bottom <= x <= top + 1).
Proof.
  intros Hlo Hle Hhi. pose proof one_pos as Hp.
  pose proof (pow2_pos 51 ltac:(lia)) as H51.
  destruct (add_one_finite max_value) as (w & Ew & Hw).
  destruct (quot_bounds (Py.units max_value) Py.one Hp) as [Hq1 Hq2].
  destruct (quot_bounds (Py.units min_value) Py.one Hp) as [Hr1 Hr2].
  pose proof (Z.quot_le_mono _ _ Py.one Hp Hle) as Hmono.
  set (top := Py.units max_value ÷ Py.one) in *.
  set (bottom := Py.units min_value ÷ Py.one) in *.
  set (stop := Py.round_ratio (Py.units max_value + Py.one) 1 ÷ Py.one).
  assert (Htop : - 2 ^ 51 <= top <= 2 ^ 51).
  { destruct (Z.le_gt_cases 0 (Py.units max_value));
      [specialize (Hq1 ltac:(lia)) | specialize (Hq2 ltac:(lia))]; nia. }
  assert (Hbottom : - 2 ^ 51 <= bottom).
  { destruct (Z.le_gt_cases 0 (Py.units min_value));
      [specialize (Hr1 ltac:(lia)) | specialize (Hr2 ltac:(lia))]; nia. }
  assert (Hgrid : forall z, Z.abs z <= 2 ^ 51 + 2 -> Py.on_grid (z * Py.one) = true)
    by (intros z Hz; apply (on_grid_scaled z 1074); lia).
  assert (Hup : forall z, Z.abs z <= 2 ^ 51 + 2 ->
            Py.units max_value + Py.one <= z * Py.one -> stop <= z).
  { intros z Hz H. subst stop. rewrite <- (quot_one_mul z).
    apply Z.quot_le_mono; [lia |]. apply round_ratio_upper; [lia | now apply Hgrid | lia]. }
  assert (Hdown : forall z, Z.abs z <= 2 ^ 51 + 2 ->
            z * Py.one <= Py.units max_value + Py.one -> z <= stop).
  { intros z Hz H. subst stop. rewrite <- (quot_one_mul z) at 1.
    apply Z.quot_le_mono; [lia |]. apply round_ratio_lower; [lia | now apply Hgrid | lia]. }
  assert (Hstop1 : 0 <= Py.units max_value -> top + 1 <= stop <= top + 2).
  { intros H0. specialize (Hq1 H0). split; [apply Hdown | apply Hup]; lia. }
  assert (Hstop2 : Py.units max_value < 0 -> top <= stop <= top + 1).
  { intros H0. specialize (Hq2 ltac:(lia)). split; [apply Hdown | apply Hup]; lia. }
  set (step := Z.max ((top - bottom) / 10) 1).
  assert (Hstep : 0 < step) by (subst step; lia).
  exists (map (fun i : nat => bottom + Z.of_nat i * step)
              (List.seq 0 (Z.to_nat (Py.range_len bottom stop step)))), bottom, top, stop.
  split_and!; try reflexivity; try assumption.
  - rewrite construct_number_scale_floats. fold top bottom stop.
    rewrite step_small by lia. fold step. apply range_pos_step. assumption.
  - rewrite Ew. cbn [Py.int]. rewrite Hw. reflexivity.
  - intros x Hx. apply in_map_iff in Hx as (i & <- & Hi). apply in_seq in Hi.
    destruct (range_len_pos_step bottom stop step Hstep) as (Hn0 & _ & Hlast).
    assert (Hi' : Z.of_nat i <= Py.range_len bottom stop step - 1) by lia.
    specialize (Hlast ltac:(lia)).
    assert (stop <= top + 2)
      by (destruct (Z.le_gt_cases 0 (Py.units max_value)) as [H0 | H0];
          [specialize (Hstop1 H0) | specialize (Hstop2 H0)]; lia).
    nia.
Qed.

Lemma construct_number_scale_between_floats_witness :
  exists (options : list Z) (bottom top stop : Z),
    AdjudicatorFeedbackQuestion.construct_number_scale
      (Py.literal 0) (Py.literal (9999999999999999 # 10000000000000000)) = Return options
    /\ Py.int (Py.literal 0) = Return bottom
    /\ Py.int (Py.literal (9999999999999999 # 10000000000000000)) = Return top
    /\ Py.int (Py.add_one (Py.literal (9999999999999999 # 10000000000000000))) = Return stop
    /\ (0 <= Py.units (Py.literal (9999999999999999 # 10000000000000000)) ->
        top + 1 <= stop <= top + 2)
    /\ (Py.units (Py.literal (9999999999999999 # 10000000000000000)) < 0 ->
        top <= stop <= top + 1)
    /\ options = map (fun i : nat => bottom + Z.of_nat i * Z.max ((top - bottom) / 10) 1)
                     (List.seq 0 (Z.to_nat (Py.range_len bottom stop
                                              (Z.max ((top - bottom) / 10) 1))))
    /\ (forall x, In x options -> bottom <= x <= top + 1).
Proof.
  apply (construct_number_scale_between_floats
           (Py.literal 0) (Py.literal (9999999999999999 # 10000000000000000))).
  - vm_compute. discriminate.
  - vm_compute. discriminate.
  - vm_compute. discriminate.
Defined.

(** Bounds with a fractional part: only [int(min_value)],
    [int(max_value)] and [int(max_value + 1)] enter the scale. *)
Example construct_number_scale_fractions :
  AdjudicatorFeedbackQuestion.construct_number_scale
    (Py.literal (19 # 10)) (Py.literal (102 # 10)) = Return [1; 2; 3; 4; 5; 6; 7; 8; 9; 10]
  /\ AdjudicatorFeedbackQuestion.construct_number_scale
       (Py.literal (-1 # 2)) (Py.literal (-1 # 2)) = Return []
  /\ AdjudicatorFeedbackQuestion.construct_number_scale (Py.literal 0) (Py.literal 0)
     = Return [0].
Proof. split_and!; vm_compute; reflexivity. Qed.

(** Float rounding shows in the scale. [0.9999999999999999 + 1] is [2.0],
    so the scale of (0, 0.9999999999999999) holds 1; [1e16 + 1] is [1e16],
    so the scale of (0.0, 1e16) stops at [9e15]; and
    [80000000000000016 / 10] is [8000000000000002.0]. *)
Example construct_number_scale_rounding :
  AdjudicatorFeedbackQuestion.construct_number_scale
    (Py.literal 0) (Py.literal (9999999999999999 # 10000000000000000)) = Return [0; 1]
  /\ AdjudicatorFeedbackQuestion.construct_number_scale
       (Py.literal 0) (Py.literal (inject_Z (10 ^ 16)))
     = Return [0; 1000000000000000; 2000000000000000; 3000000000000000; 4000000000000000;
               5000000000000000; 6000000000000000; 7000000000000000; 8000000000000000;
               9000000000000000]
  /\ (quotient ← Py.truediv 80000000000000016 10; Py.int quotient)
     = Return 8000000000000002.
Proof. split_and!; vm_compute; reflexivity. Qed.

(** A bound that is not finite makes the call raise. *)
Example construct_number_scale_not_finite :
  AdjudicatorFeedbackQuestion.construct_number_scale (Py.literal 0) (Py.Inf false)
    = Raise OverflowError
  /\ AdjudicatorFeedbackQuestion.construct_number_scale (Py.literal 0) Py.NaN
     = Raise ValueError.
Proof. split; reflexivity. Qed.

End number_scale_shape.

(** ** Escaping and the serialized question *)

Section escaping.

Lemma escape_char_cases (c : ascii) :
  (nat_of_ascii c = 38%nat /\ Django.escape_char c = "&amp;"%string)
  \/ (nat_of_ascii c = 60%nat /\ Django.escape_char c = "&lt;"%string)
  \/ (nat_of_ascii c = 62%nat /\ Django.escape_char c = "&gt;"%string)
  \/ (nat_of_ascii c = 34%nat /\ Django.escape_char c = "&quot;"%string)
  \/ (nat_of_ascii c = 39%nat /\ Django.escape_char c = "&#x27;"%string)
  \/ (nat_of_ascii c <> 38%nat /\ nat_of_ascii c <> 60%nat /\ nat_of_ascii c <> 62%nat
      /\ nat_of_ascii c <> 34%nat /\ nat_of_ascii c <> 39%nat
      /\ Django.escape_char c = String c EmptyString).
Proof.
  unfold Django.escape_char. generalize (nat_of_ascii c) as n. intros n.
  destruct (Nat.eqb_spec n 38); [tauto |].
  destruct (Nat.eqb_spec n 60); [tauto |].
  destruct (Nat.eqb_spec n 62); [tauto |].
  destruct (Nat.eqb_spec n 34); [tauto |].
  destruct (Nat.eqb_spec n 39); [tauto |].
  do 5 right. tauto.
Qed.

Lemma nat_of_ascii_inj (c1 c2 : ascii) : nat_of_ascii c1 = nat_of_ascii c2 -> c1 = c2.
Proof.
  intros H. rewrite <- (ascii_nat_embedding c1), <- (ascii_nat_embedding c2), H. reflexivity.
Qed.



Lemma escape_inj (s1 s2 : string) : Django.escape s1 = Django.escape s2 -> s1 = s2.
Proof.
  revert s2. induction s1 as [| c1 s1 IH]; intros [| c2 s2]; simpl; intros H.
  - reflexivity.
  - exfalso.
    destruct (escape_char_cases c2) as [[_ E] | [[_ E] | [[_ E] | [[_ E] | [[_ E] | E]]]]];
      [| | | | | destruct E as (_ & _ & _ & _ & _ & E)]; rewrite E in H; discriminate H.
  - exfalso.
    destruct (escape_char_cases c1) as [[_ E] | [[_ E] | [[_ E] | [[_ E] | [[_ E] | E]]]]];
      [| | | | | destruct E as (_ & _ & _ & _ & _ & E)]; rewrite E in H; discriminate H.
  - destruct (escape_char_cases c1) as [[N1 E1] | [[N1 E1] | [[N1 E1] | [[N1 E1] | [[N1 E1] | E1]]]]];
      destruct (escape_char_cases c2) as [[N2 E2] | [[N2 E2] | [[N2 E2] | [[N2 E2] | [[N2 E2] | E2]]]]];
      try (destruct E1 as (A1 & B1 & C1 & D1 & F1 & E1));
      try (destruct E2 as (A2 & B2 & C2 & D2 & F2 & E2));
      rewrite E1, E2 in H; simpl in H; try discriminate H.
    all: try (injection H as H; apply IH in H; subst s2; f_equal;
              apply nat_of_ascii_inj; congruence).
    all: try (injection H as Hc H; exfalso; subst c1;
              first [apply A1; reflexivity | apply B1; reflexivity | apply C1; reflexivity
                    | apply D1; reflexivity | apply F1; reflexivity]).
    all: try (injection H as Hc H; exfalso; subst c2;
              first [apply A2; reflexivity | apply B2; reflexivity | apply C2; reflexivity
                    | apply D2; reflexivity | apply F2; reflexivity]).
    injection H as -> H. apply IH in H. subst. reflexivity.
Qed.

Import AdjudicatorFeedbackQuestion.


Lemma serialize_escaped_entries (q : t) :
  exists question : gmap string pyval,
    serialize q = Return question
    /\ question !! "text" = Some (PyStr (Django.escape (text q)))
    /\ (choices q <> [] ->
        question !! "choice_options"
        = Some (PyList (map PyStr (map Django.escape (choices q))))).
Proof.
  unfold serialize.
  destruct (choices q) as [| c cs] eqn:Hc.
  - destruct (min_value q) as [lo |] eqn:Hlo, (max_value q) as [hi |] eqn:Hhi; simpl.
    1: { unfold choices_for_number_scale. rewrite Hlo, Hhi.
         destruct (construct_number_scale_returns lo hi) as [scale ->]. simpl.
         eexists. split; [reflexivity |]. split; [reflexivity | intros []; reflexivity]. }
    all: eexists; (split; [reflexivity |]); (split; [reflexivity | intros []; reflexivity]).
  - simpl. eexists. split; [reflexivity |]. split; [reflexivity |].
    intros _. rewrite map_map. reflexivity.
Qed.


(** X5. Escaping loses no choice: the choice options are the choices in
    their order, one for one, and two options are equal only where the two
    choices are, so a question without repeated choices is serialized
    without repeated options. *)
Theorem serialize_choice_options_faithful (q : t) :
  choices q <> [] ->
  exists (question : gmap string pyval) (options : list string),
    serialize q = Return question
    /\ question !! "choice_options" = Some (PyList (map PyStr options))
    /\ length options = length (choices q)
    /\ (forall i, nth_error options i = option_map Django.escape (nth_error (choices q) i))
    /\ (forall i j a b,
          nth_error (choices q) i = Some a -> nth_error (choices q) j = Some b ->
          nth_error options i = nth_error options j -> a = b)
    /\ (List.NoDup (choices q) -> List.NoDup options).
Proof.
  intros Hc. destruct (serialize_escaped_entries q) as (d & Hd & _ & Hopts).
  exists d, (map Django.escape (choices q)).
  split_and!; [assumption | apply Hopts, Hc | apply length_map | | |].
  - intros i. apply nth_error_map.
  - intros i j a b Ha Hb. rewrite !nth_error_map, Ha, Hb. simpl.
    intros [= H]. apply escape_inj, H.
  - intros Hnd. apply NoDup_map_injective; [apply escape_inj | assumption].
Qed.

Lemma serialize_choice_options_faithful_witness :
  exists (question : gmap string pyval) (options : list string),
    serialize Orphans.question_choice = Return question
    /\ question !! "choice_options" = Some (PyList (map PyStr options))
    /\ options = ["&lt;b&gt;A&lt;/b&gt;"; "A"; "B &amp; C"]%string
    /\ List.NoDup options.
Proof.
  destruct (serialize_choice_options_faithful Orphans.question_choice ltac:(discriminate))
    as (d & options & Hd & Hopts & _ & Hnth & _ & Hnd).
  exists d, options. split_and!; [assumption | assumption | |].
  - apply nth_error_ext. intros i. rewrite Hnth.
    destruct i as [| [| [| [| i]]]]; reflexivity.
  - apply Hnd. repeat constructor; simpl; intuition discriminate.
Defined.

End escaping.

(** ** Answer tables, seen from the question and from the feedback *)

Section answer_tables.

Import AdjudicatorFeedback.

(** X6. [NUMERICAL_ANSWER_TYPES] agrees with the dispatch table: a type is
    listed as numerical exactly when its answers are stored in the integer
    or in the float table, and no type is listed twice. *)
Theorem NUMERICAL_ANSWER_TYPES_are_number_tables :
  (forall ty : AnswerType,
      In ty AdjudicatorFeedbackQuestion.NUMERICAL_ANSWER_TYPES
      <-> AdjudicatorFeedbackQuestion.ANSWER_CLASSES !! value ty
            = Some AdjudicatorFeedbackIntegerAnswer
          \/ AdjudicatorFeedbackQuestion.ANSWER_CLASSES !! value ty
            = Some AdjudicatorFeedbackFloatAnswer)
  /\ List.NoDup AdjudicatorFeedbackQuestion.NUMERICAL_ANSWER_TYPES.
Proof.
  split.
  - intros ty. rewrite ANSWER_CLASSES_lookup. unfold AdjudicatorFeedbackQuestion.NUMERICAL_ANSWER_TYPES.
    destruct ty; simpl; split; intros H; try tauto;
      repeat (destruct H as [H | H]; try discriminate H); try contradiction.
  - repeat constructor; simpl; intuition discriminate.
Qed.

(** X7. What a question finds in its [answer_set] the feedback finds in
    [get_answers]: for a question with one of the nine type codes,
    [answer_set] returns rows of that question only, and each of them that
    belongs to a feedback is an entry of that feedback's answers. *)
Theorem answer_set_within_get_answers
    (db : Database) (q : AdjudicatorFeedbackQuestion.t) (ty : AnswerType) (self : t) :
  AdjudicatorFeedbackQuestion.answer_type q = value ty ->
  exists (rows : list (AdjudicatorFeedbackAnswer pyval)) (answers : list (gmap string pyval)),
    AdjudicatorFeedbackQuestion.answer_set db q = Return rows
    /\ get_answers db self = Return answers
    /\ (forall r, In r rows -> question r = AdjudicatorFeedbackQuestion.pk q)
    /\ (forall r, In r rows -> feedback r = pk self ->
          In (<["answer" := answer r]> (<["question" := PyRef (question r)]> ∅)) answers).
Proof.
  intros Hty.
  unfold AdjudicatorFeedbackQuestion.answer_set, AdjudicatorFeedbackQuestion.answer_type_class.
  rewrite Hty, ANSWER_CLASSES_lookup.
  set (cls := match ty with BOOLEAN_CHECKBOX => _ | _ => _ end).
  eexists. eexists. split; [reflexivity |].
  split; [apply (get_answers_loop_flat_map db self) |]. split.
  - intros r Hr. apply filter_In in Hr as [_ Hr]. now apply Z.eqb_eq.
  - intros r Hr Hf. apply filter_In in Hr as [Hr _].
    apply in_flat_map. exists cls. split.
    + destruct cls; simpl; tauto.
    + apply (in_map answer_dict). apply filter_In. split; [assumption | now apply Z.eqb_eq].
Qed.

Lemma answer_set_within_get_answers_witness :
  exists (rows : list (AdjudicatorFeedbackAnswer pyval)) (answers : list (gmap string pyval)),
    AdjudicatorFeedbackQuestion.answer_set Orphans.db Orphans.question_1 = Return rows
    /\ get_answers Orphans.db Sample.from_team = Return answers
    /\ (forall r, In r rows -> question r = 1)
    /\ (forall r, In r rows -> feedback r = 10 ->
          In (<["answer" := answer r]> (<["question" := PyRef (question r)]> ∅)) answers).
Proof.
  apply (answer_set_within_get_answers Orphans.db Orphans.question_1 INTEGER_SCALE
           Sample.from_team).
  reflexivity.
Defined.

Lemma count_occ_unique_question {A : Type} (rows : list (AdjudicatorFeedbackAnswer A))
    (k q : Z) :
  unique_together rows ->
  count_occ Z.eq_dec (map question (List.filter (fun r => feedback r =? k) rows)) q
  = if existsb (fun r => (question r =? q) && (feedback r =? k))%bool rows
    then 1%nat else 0%nat.
Proof.
  intros Hu. pose proof (unique_together_questions rows k Hu) as Hnd.
  destruct (existsb _ rows) eqn:E.
  - apply existsb_exists in E as (r & Hr & Hrq). apply andb_prop in Hrq as [Hq Hk].
    apply Z.eqb_eq in Hq. subst q.
    assert (Hin : In (question r) (map question (List.filter (fun r => feedback r =? k) rows)))
      by (apply in_map, filter_In; auto).
    apply (count_occ_In Z.eq_dec) in Hin.
    pose proof (proj1 (NoDup_count_occ Z.eq_dec _) Hnd (question r)). lia.
  - apply (count_occ_not_In Z.eq_dec). intros Hin.
    apply in_map_iff in Hin as (r & Hq & Hr). apply filter_In in Hr as [Hr Hk].
    assert (existsb (fun r => (question r =? q) && (feedback r =? k))%bool rows = true).
    { apply existsb_exists. exists r. split; [assumption |].
      rewrite Hk, andb_true_r. now apply Z.eqb_eq. }
    congruence.
Qed.

(** The questions of a list of entries, in order. *)
Lemma entry_questions (db : Database) (self : t) (typs : list AnswerClass) :
  flat_map (fun e : gmap string pyval =>
              match e !! "question" with Some (PyRef q) => [q] | _ => [] end)
           (flat_map (fun cls => map answer_dict
                        (List.filter (fun r => feedback r =? pk self) (objects db cls))) typs)
  = flat_map (fun cls => map question
                (List.filter (fun r => feedback r =? pk self) (objects db cls))) typs.
Proof.
  induction typs as [| typ typs IH]; simpl; [reflexivity |].
  rewrite flat_map_app, IH. f_equal.
  induction (List.filter _ (objects db typ)) as [| r rows IHr]; simpl; [reflexivity |].
  now rewrite IHr.
Qed.

(** X8. With the uniqueness constraint on every table, a question occurs in
    the answers of a feedback once for each answer table that holds an
    answer to it for this feedback: once in the normal case, and twice when
    its answer type was changed and the old row is still stored. *)
Theorem get_answers_entries_per_question (db : Database) (self : t) :
  answer_tables_unique db ->
  exists answers : list (gmap string pyval),
    get_answers db self = Return answers
    /\ forall q : Z,
         count_occ Z.eq_dec
           (flat_map (fun e : gmap string pyval =>
                        match e !! "question" with Some (PyRef q') => [q'] | _ => [] end)
                     answers) q
         = length
             (List.filter
                (fun cls => existsb (fun r => (question r =? q) && (feedback r =? pk self))%bool
                                    (objects db cls))
                [AdjudicatorFeedbackStringAnswer; AdjudicatorFeedbackManyAnswer;
                 AdjudicatorFeedbackIntegerAnswer; AdjudicatorFeedbackFloatAnswer;
                 AdjudicatorFeedbackBooleanAnswer]).
Proof.
  intros Hu. eexists. split; [apply (get_answers_loop_flat_map db self) |].
  intros q. rewrite entry_questions.
  change (map fst AdjudicatorFeedbackQuestion.ANSWER_CLASSES_REVERSE)
    with [AdjudicatorFeedbackStringAnswer; AdjudicatorFeedbackManyAnswer;
          AdjudicatorFeedbackIntegerAnswer; AdjudicatorFeedbackFloatAnswer;
          AdjudicatorFeedbackBooleanAnswer].
  generalize [AdjudicatorFeedbackStringAnswer; AdjudicatorFeedbackManyAnswer;
              AdjudicatorFeedbackIntegerAnswer; AdjudicatorFeedbackFloatAnswer;
              AdjudicatorFeedbackBooleanAnswer] as typs.
  induction typs as [| typ typs IH]; simpl; [reflexivity |].
  rewrite count_occ_app, IH, count_occ_unique_question
    by (apply objects_unique_together, Hu).
  destruct (existsb _ (objects db typ)); reflexivity.
Qed.

Lemma get_answers_entries_per_question_witness :
  exists answers : list (gmap string pyval),
    get_answers Orphans.db Sample.from_team = Return answers
    /\ count_occ Z.eq_dec
         (flat_map (fun e : gmap string pyval =>
                      match e !! "question" with Some (PyRef q') => [q'] | _ => [] end)
                   answers) 1 = 2%nat
    /\ count_occ Z.eq_dec
         (flat_map (fun e : gmap string pyval =>
                      match e !! "question" with Some (PyRef q') => [q'] | _ => [] end)
                   answers) 2 = 1%nat.
Proof.
  destruct (get_answers_entries_per_question Orphans.db Sample.from_team) as (a & Ha & Hq).
  - unfold answer_tables_unique, unique_together; simpl.
    split_and!; repeat constructor; simpl; intuition discriminate.
  - exists a. split; [assumption |]. rewrite !Hq. split; reflexivity.
Defined.

End answer_tables.

(** ** Lazy attributes of a feedback *)

Section lazy_reads.

Import AdjudicatorFeedback.

Lemma feedback_weight_coherent (self : t) (d : Debate.t) :
  coherent self ->
  fst (debate self) = Return (Some d) ->
  fst (feedback_weight self) =
    Return match Debate.round d with
           | Some r => Round.feedback_weight r
           | None => 1%Q
           end.
Proof.
  intros Hco Hd.
  destruct (cached_feedback_weight (attrs self)) as [w |] eqn:Hw.
  - unfold feedback_weight at 1, cached_property. rewrite Hw. simpl.
    pose proof (debate_coherent self Hco) as Hsrc.
    destruct Hco as [_ Hfw]. rewrite <- (Hfw w Hw).
    apply feedback_weight_first_read; [reflexivity |].
    rewrite debate_unfold. simpl. congruence.
  - apply feedback_weight_first_read; assumption.
Qed.

Lemma debate_stores (self self' : t) (d : option Debate.t) :
  debate self = (Return d, self') -> cached_debate (attrs self') = Some d.
Proof.
  rewrite debate_unfold. destruct (cached_debate (attrs self)) as [c |] eqn:Hc.
  - intros [= <- <-]. assumption.
  - cbv zeta. intros [= <- <-]. reflexivity.
Qed.

(** X9. On a coherent instance [round] raises [AttributeError] exactly when
    the feedback has no source; with a source it returns the round of the
    source's debate, the source adjudicator taking precedence over the
    source team. *)
Theorem round_of_source (self : t) :
  coherent self ->
  (source_adjudicator self = None -> source_team self = None ->
   fst (round self) = Raise AttributeError)
  /\ (forall sa, source_adjudicator self = Some sa ->
        fst (round self) = Return (Debate.round (DebateAdjudicator.debate sa)))
  /\ (forall st, source_adjudicator self = None -> source_team self = Some st ->
        fst (round self) = Return (Debate.round (DebateTeam.debate st)))
  /\ (fst (round self) = Raise AttributeError ->
      source_adjudicator self = None /\ source_team self = None).
Proof.
  intros Hco. pose proof (debate_coherent self Hco) as Hd.
  rewrite round_unfold. destruct (debate self) as [r s1]. simpl in Hd. subst r.
  destruct (source_adjudicator self) as [sa |], (source_team self) as [st |]; simpl;
    split_and!; intros; try discriminate; try reflexivity; try congruence; auto.
Qed.

Lemma round_of_source_witness :
  fst (round Orphans.no_source) = Raise AttributeError
  /\ fst (round Sample.from_adjudicator) = Return (Some Sample.round).
Proof.
  assert (Hnone : coherent Orphans.no_source) by (split; intros x H; discriminate H).
  assert (Hadj : coherent Sample.from_adjudicator) by (split; intros x H; discriminate H).
  split.
  - apply (proj1 (round_of_source Orphans.no_source Hnone)); reflexivity.
  - apply (proj1 (proj2 (round_of_source Sample.from_adjudicator Hadj)) Sample.seat_bob).
    reflexivity.
Defined.

(** X10. A failed read of [feedback_weight] is not remembered: on a coherent
    feedback without a source the read raises [AttributeError], stores no
    weight, and raises again on the instance it leaves behind. *)
Theorem feedback_weight_failure_not_cached (self : t) :
  coherent self ->
  source_adjudicator self = None -> source_team self = None ->
  cached_feedback_weight (attrs self) = None ->
  exists self',
    feedback_weight self = (Raise AttributeError, self')
    /\ cached_feedback_weight (attrs self') = None
    /\ feedback_weight self' = (Raise AttributeError, self').
Proof.
  intros Hco Hsa Hst Hw. pose proof (debate_coherent self Hco) as Hd.
  rewrite Hsa, Hst in Hd.
  destruct (debate self) as [r s1] eqn:E. simpl in Hd. subst r.
  assert (Hw1 : cached_feedback_weight (attrs s1) = None).
  { rewrite debate_unfold in E. destruct (cached_debate (attrs self));
      injection E as _ <-; simpl; assumption. }
  assert (Hrun : forall s, debate s = (Return None, s1) ->
                 cached_feedback_weight (attrs s) = None ->
                 feedback_weight s = (Raise AttributeError, s1)).
  { intros s Hs Hws. unfold feedback_weight, cached_property. rewrite Hws.
    rewrite bind_unfold, round_unfold, Hs. reflexivity. }
  exists s1. split_and!.
  - apply Hrun; assumption.
  - assumption.
  - apply Hrun; [| assumption]. apply (debate_idempotent self). assumption.
Qed.

Lemma feedback_weight_failure_not_cached_witness :
  exists self',
    feedback_weight Orphans.no_source = (Raise AttributeError, self')
    /\ cached_feedback_weight (attrs self') = None
    /\ feedback_weight self' = (Raise AttributeError, self').
Proof.
  apply (feedback_weight_failure_not_cached Orphans.no_source); try reflexivity.
  split; intros x H; discriminate H.
Defined.

(** X11. A successful read of [debate] or [feedback_weight] is final: a
    second read on the instance it leaves returns the same value and leaves
    the same instance, and reading [feedback_weight] does not change what
    [debate] returns. *)
Theorem lazy_reads_are_stable (self self' : t) :
  (forall d, debate self = (Return d, self') -> debate self' = (Return d, self'))
  /\ (forall w, feedback_weight self = (Return w, self') ->
        feedback_weight self' = (Return w, self')
        /\ fst (debate self') = fst (debate self)).
Proof.
  split.
  - intros d. apply debate_idempotent.
  - intros w Hrun. split.
    + unfold feedback_weight in *. eapply cached_property_stored; [| exact Hrun]. reflexivity.
    + revert Hrun. unfold feedback_weight, cached_property.
      destruct (cached_feedback_weight (attrs self)) as [c |].
      * intros [= _ <-]. reflexivity.
      * rewrite bind_unfold, round_unfold.
        destruct (debate self) as [[[d |] | e] s1] eqn:E; try discriminate.
        pose proof (debate_idempotent _ _ _ E) as E1.
        pose proof (debate_stores _ _ _ E) as Hc.
        destruct (Debate.round d) as [r |] eqn:Hr.
        -- rewrite bind_unfold, round_unfold, E1, Hr. intros [= _ <-].
           rewrite debate_unfold. simpl. rewrite Hc. reflexivity.
        -- intros [= _ <-]. rewrite debate_unfold. simpl. rewrite Hc. reflexivity.
Qed.

Lemma lazy_reads_are_stable_witness :
  feedback_weight (snd (feedback_weight Sample.from_team))
  = (Return (1 # 2)%Q, snd (feedback_weight Sample.from_team))
  /\ fst (debate (snd (feedback_weight Sample.from_team))) = Return (Some Sample.debate).
Proof.
  apply (proj2 (lazy_reads_are_stable Sample.from_team (snd (feedback_weight Sample.from_team)))
               (1 # 2)%Q).
  reflexivity.
Defined.

End lazy_reads.

(** ** What validation guarantees *)

Section validation.

Import AdjudicatorFeedback.
Context {base : Submission}.

Lemma debate_frame (self : t) :
  uncached (snd (debate self)) = uncached self
  /\ _debateadj (attrs (snd (debate self))) = _debateadj (attrs self)
  /\ cached_debate_adjudicator (attrs (snd (debate self)))
     = cached_debate_adjudicator (attrs self)
  /\ cached_feedback_weight (attrs (snd (debate self))) = cached_feedback_weight (attrs self).
Proof.
  destruct (debate_snd self) as [-> | (d & -> & _)]; repeat split; reflexivity.
Qed.

Lemma clean_snd (self : t) :
  snd (clean self) = self \/ snd (clean self) = snd (debate self).
Proof.
  rewrite clean_unfold.
  destruct (source_adjudicator self), (source_team self), (adjudicator self) as [adj |];
    simpl; try (left; reflexivity).
  all: destruct (debate self) as [[[d |] | e] s1]; simpl; try (right; reflexivity).
  all: destruct (Py.contains Adjudicator.eqb adj _); right; reflexivity.
Qed.

(** X12. [clean] accepts nothing it should have refused: if it returns, the
    target adjudicator is set, the feedback has a debate, the target is on
    that debate's panel, and the base class accepted the feedback. *)
Theorem clean_accepts_only_panel_targets (self : t) :
  fst (clean self) = Return tt ->
  exists adj d,
    adjudicator self = Some adj
    /\ fst (debate self) = Return (Some d)
    /\ Py.contains Adjudicator.eqb adj (Debate.adjudicators d) = true
    /\ Submission_clean (snd (debate self)) = Return tt.
Proof.
  rewrite clean_unfold.
  destruct (source_adjudicator self), (source_team self), (adjudicator self) as [adj |];
    simpl; try discriminate.
  all: destruct (debate self) as [[[d |] | e] s1]; simpl; try discriminate.
  all: destruct (Py.contains Adjudicator.eqb adj (Debate.adjudicators d)) eqn:Hin;
    simpl; try discriminate.
  all: intros H; exists adj, d; auto.
Qed.

(** X13. On a coherent instance [clean] has five outcomes and no other:
    the validation error for no source, for two sources or for a target
    that is not on the panel; the error of reading a target that is unset
    ([RelatedObjectDoesNotExist], an [AttributeError]); or whatever the base
    class returns. The panel check never meets a missing debate, so an
    [AttributeError] of [clean] itself means that the target is unset. *)
Theorem clean_outcomes (self : t) :
  coherent self ->
  fst (clean self)
    = Raise (ValidationError "Either the source adjudicator or source team wasn't specified.")
  \/ fst (clean self)
    = Raise (ValidationError "There was both a source adjudicator and a source team.")
  \/ (exactly_one_source self /\ adjudicator self = None
      /\ fst (clean self) = Raise AttributeError)
  \/ fst (clean self) = Raise (ValidationError "Adjudicator did not see this debate.")
  \/ fst (clean self) = Submission_clean (snd (debate self)).
Proof.
  intros Hco. pose proof (debate_coherent self Hco) as Hd.
  rewrite clean_unfold. unfold exactly_one_source.
  destruct (adjudicator self) as [adj |].
  - destruct (source_adjudicator self), (source_team self); simpl; try tauto.
    all: destruct (debate self) as [r s1]; simpl in Hd; subst r.
    all: destruct (Py.contains Adjudicator.eqb adj _); simpl; tauto.
  - destruct (source_adjudicator self), (source_team self); simpl; try tauto.
    all: right; right; left; split_and!; try reflexivity.
    + left. split; congruence.
    + right. split; congruence.
Qed.

(** X14. [clean] changes no stored field and sets no lazy attribute but the
    cached debate: the instance it leaves is the one [debate] leaves. *)
Theorem clean_only_caches_debate (self : t) :
  (snd (clean self) = self \/ snd (clean self) = snd (debate self))
  /\ uncached (snd (clean self)) = uncached self
  /\ _debateadj (attrs (snd (clean self))) = _debateadj (attrs self)
  /\ cached_debate_adjudicator (attrs (snd (clean self)))
     = cached_debate_adjudicator (attrs self)
  /\ cached_feedback_weight (attrs (snd (clean self))) = cached_feedback_weight (attrs self).
Proof.
  destruct (clean_snd self) as [-> | ->]; [| split; [right; reflexivity | apply debate_frame]].
  split; [left; reflexivity | repeat split; reflexivity].
Qed.

(** X15. Validation makes the derived properties safe: after [clean] has
    accepted a coherent feedback, [round] does not raise and
    [feedback_weight] returns a weight, the same before and after the call. *)
Theorem clean_makes_weight_readable (self : t) :
  coherent self ->
  fst (clean self) = Return tt ->
  exists (r : option Round.t) (w : Q),
    fst (round self) = Return r
    /\ fst (feedback_weight self) = Return w
    /\ fst (feedback_weight (snd (clean self))) = Return w
    /\ w = match r with Some r => Round.feedback_weight r | None => 1%Q end.
Proof.
  intros Hco Hclean.
  pose proof (clean_preserves_coherent self Hco) as Hco'.
  assert (Hd : exists d, fst (debate self) = Return (Some d)
                         /\ fst (debate (snd (clean self))) = Return (Some d)).
  { pose proof (debate_coherent self Hco) as Hsrc.
    pose proof (debate_coherent _ Hco') as Hsrc'.
    assert (Hf : source_adjudicator (snd (clean self)) = source_adjudicator self
                 /\ source_team (snd (clean self)) = source_team self).
    { assert (Hu : uncached (snd (clean self)) = uncached self)
        by (destruct (clean_snd self) as [-> | ->]; [reflexivity | apply debate_frame]).
      split.
      - change (source_adjudicator (uncached (snd (clean self)))
                = source_adjudicator (uncached self)). now rewrite Hu.
      - change (source_team (uncached (snd (clean self))) = source_team (uncached self)).
        now rewrite Hu. }
    destruct Hf as [Hf1 Hf2]. rewrite Hf1, Hf2, <- Hsrc in Hsrc'.
    assert (Hsome : exists d, fst (debate self) = Return (Some d)).
    { clear Hsrc'. revert Hclean. rewrite clean_unfold.
      destruct (source_adjudicator self), (source_team self), (adjudicator self) as [adj |];
        simpl; try discriminate.
      all: destruct (debate self) as [[[d |] | e] s1]; simpl; try discriminate; eauto. }
    destruct Hsome as [d Hd]. exists d. split; [assumption | congruence]. }
  destruct Hd as (d & Hd & Hd').
  exists (Debate.round d), (match Debate.round d with
                            | Some r => Round.feedback_weight r
                            | None => 1%Q
                            end).
  split_and!.
  - rewrite round_unfold. destruct (debate self) as [x s1]. simpl in Hd. subst x. reflexivity.
  - apply feedback_weight_coherent; assumption.
  - apply feedback_weight_coherent; assumption.
  - reflexivity.
Qed.

End validation.

(** ** The uniqueness key and the seat of the target *)

Section unique_key.

Import AdjudicatorFeedback.
Context {base : Submission}.

Lemma unique_unconfirm_args_unfold (self : t) :
  _unique_unconfirm_args self =
    match Submission__unique_unconfirm_args self with
    | Raise e => (Raise e, self)
    | Return kwargs =>
        match source_team self with
        | None => (Return kwargs, self)
        | Some st =>
            match Debate.round (DebateTeam.debate st) with
            | None => (Raise AttributeError, self)
            | Some r =>
                if String.eqb (Tournament.pref (Round.tournament r) "feedback_from_teams")
                              "orallist"
                then match kwargs !! "adjudicator" with
                     | Some _ => (Return (delete "adjudicator" kwargs), self)
                     | None => (Raise (KeyError "adjudicator"), self)
                     end
                else (Return kwargs, self)
            end
        end
    end.
Proof.
  unfold _unique_unconfirm_args, mbind, method_bind, query, attr, call, raise, Py.pop.
  destruct (Submission__unique_unconfirm_args self) as [kwargs | e]; [| reflexivity].
  destruct (source_team self) as [st |]; [| reflexivity].
  destruct (Debate.round (DebateTeam.debate st)) as [r |]; [| reflexivity].
  destruct (String.eqb _ _); [| reflexivity].
  destruct (kwargs !! "adjudicator"); reflexivity.
Qed.

(** X16. [_unique_unconfirm_args] touches one entry at most: whenever it
    returns a key, every entry other than ['adjudicator'] is the entry of the
    base class's key, the key holds nothing the base key does not, and the
    instance is left as it was. *)
Theorem unique_unconfirm_args_keeps_other_entries
    (self self' : t) (kwargs key : gmap string pyval) :
  Submission__unique_unconfirm_args self = Return kwargs ->
  _unique_unconfirm_args self = (Return key, self') ->
  self' = self
  /\ (forall k, k <> "adjudicator" -> key !! k = kwargs !! k)
  /\ key ⊆ kwargs.
Proof.
  intros Hbase. rewrite unique_unconfirm_args_unfold, Hbase.
  assert (Hdel : forall k, k <> "adjudicator" ->
                 delete "adjudicator" kwargs !! k = kwargs !! k)
    by (intros k Hk; apply lookup_delete_ne; congruence).
  destruct (source_team self) as [st |].
  - destruct (Debate.round (DebateTeam.debate st)) as [r |]; [| discriminate].
    destruct (String.eqb _ _).
    + destruct (kwargs !! "adjudicator"); [| discriminate].
      intros [= <- <-]. split_and!; [reflexivity | exact Hdel | apply delete_subseteq].
    + intros [= <- <-]. split_and!; [reflexivity | reflexivity | reflexivity].
  - intros [= <- <-]. split_and!; [reflexivity | reflexivity | reflexivity].
Qed.

(** X17. How [_unique_unconfirm_args] fails: an error of the base class is
    passed on; a source team whose debate has no round gives
    [AttributeError], whatever the preference; and under the oral-list
    preference a base key without ['adjudicator'] gives
    [KeyError('adjudicator')], since [pop] has no default. *)
Theorem unique_unconfirm_args_errors (self : t) :
  (forall e, Submission__unique_unconfirm_args self = Raise e ->
     _unique_unconfirm_args self = (Raise e, self))
  /\ (forall kwargs st,
        Submission__unique_unconfirm_args self = Return kwargs ->
        source_team self = Some st ->
        Debate.round (DebateTeam.debate st) = None ->
        _unique_unconfirm_args self = (Raise AttributeError, self))
  /\ (forall kwargs st r,
        Submission__unique_unconfirm_args self = Return kwargs ->
        source_team self = Some st ->
        Debate.round (DebateTeam.debate st) = Some r ->
        Tournament.pref (Round.tournament r) "feedback_from_teams" = "orallist" ->
        kwargs !! "adjudicator" = None ->
        _unique_unconfirm_args self = (Raise (KeyError "adjudicator"), self)).
Proof.
  rewrite unique_unconfirm_args_unfold. split_and!.
  - intros e ->. reflexivity.
  - intros kwargs st -> -> ->. reflexivity.
  - intros kwargs st r -> -> -> -> ->. reflexivity.
Qed.

End unique_key.

Section seat.

Import AdjudicatorFeedback.

Lemma debate_adjudicator_first_read (db : Database) (self : t) :
  _debateadj (attrs self) = None ->
  cached_debate_adjudicator (attrs self) = None ->
  debate_adjudicator db self =
    match adjudicator self with
    | None => (Raise AttributeError, self)
    | Some adj =>
        match debate self with
        | (Raise e, s1) => (Raise e, s1)
        | (Return d, s1) =>
            match debateadjudicator_set_filter db adj d with
            | [] =>
                (Return None,
                 with_attrs (set_cached_debate_adjudicator None)
                            (with_attrs (set__debateadj None) s1))
            | [seat] =>
                (Return (Some seat),
                 with_attrs (set_cached_debate_adjudicator (Some seat))
                            (with_attrs (set__debateadj (Some seat)) s1))
            | _ => (Raise MultipleObjectsReturned, s1)
            end
        end
    end.
Proof.
  intros Hattr Hcache.
  unfold debate_adjudicator, cached_property. rewrite Hcache.
  unfold mbind, method_bind, attr, try_except_DoesNotExist, call, setattr, raise.
  rewrite Hattr. destruct (adjudicator self) as [adj |]; [| reflexivity].
  destruct (debate_returns self) as [d0 Hd0].
  destruct (debate self) as [[d | e] s1]; [| discriminate Hd0].
  destruct (debateadjudicator_set_filter db adj d) as [| seat [| seat' rows]]; reflexivity.
Qed.

(** X18. The seat that a first read of [debate_adjudicator] returns is a
    stored seat of the target adjudicator in the feedback's debate: the
    feedback has a target and a debate, and the row carries their keys. *)
Theorem debate_adjudicator_returns_matching_seat
    (db : Database) (self : t) (seat : DebateAdjudicator.t) :
  _debateadj (attrs self) = None ->
  cached_debate_adjudicator (attrs self) = None ->
  fst (debate_adjudicator db self) = Return (Some seat) ->
  In seat (debateadjudicators db)
  /\ exists adj d,
       adjudicator self = Some adj
       /\ fst (debate self) = Return (Some d)
       /\ Adjudicator.pk (DebateAdjudicator.adjudicator seat) = Adjudicator.pk adj
       /\ Debate.pk (DebateAdjudicator.debate seat) = Debate.pk d.
Proof.
  intros Hattr Hcache. rewrite debate_adjudicator_first_read by assumption.
  destruct (adjudicator self) as [adj |]; [| discriminate].
  destruct (debate self) as [[d | e] s1]; [| discriminate].
  destruct (debateadjudicator_set_filter db adj d) as [| seat0 [| seat' rows]] eqn:Hrows;
    simpl; try discriminate.
  intros [= ->].
  assert (Hin : In seat (debateadjudicator_set_filter db adj d)) by (rewrite Hrows; now left).
  destruct d as [d |]; [| destruct Hin].
  apply filter_In in Hin as [Hin Hkeys]. apply andb_prop in Hkeys as [Ha Hd].
  apply Z.eqb_eq in Ha, Hd.
  split; [assumption |]. exists adj, d. auto.
Qed.

(** X19. Only a missing seat is tolerated. When several stored seats match,
    the read raises [MultipleObjectsReturned] and remembers nothing, so a
    read after the table was repaired finds the seat. *)
Theorem debate_adjudicator_duplicate_seats
    (db : Database) (self : t) (adj : Adjudicator.t) (d : Debate.t)
    (seat1 seat2 : DebateAdjudicator.t) (seats : list DebateAdjudicator.t) :
  _debateadj (attrs self) = None ->
  cached_debate_adjudicator (attrs self) = None ->
  adjudicator self = Some adj ->
  fst (debate self) = Return (Some d) ->
  debateadjudicator_set_filter db adj (Some d) = seat1 :: seat2 :: seats ->
  exists self',
    debate_adjudicator db self = (Raise MultipleObjectsReturned, self')
    /\ _debateadj (attrs self') = None
    /\ cached_debate_adjudicator (attrs self') = None
    /\ (forall db' seat,
          debateadjudicator_set_filter db' adj (Some d) = [seat] ->
          fst (debate_adjudicator db' self') = Return (Some seat)).
Proof.
  intros Hattr Hcache Hadj Hd Hrows.
  rewrite debate_adjudicator_first_read, Hadj by assumption.
  destruct (debate self) as [r s1] eqn:E. simpl in Hd. subst r. rewrite Hrows.
  destruct (debate_frame self) as (Hu & Ha & Hc & _). rewrite E in Hu, Ha, Hc. simpl in Hu, Ha, Hc.
  exists s1. split_and!; [reflexivity | congruence | congruence |].
  intros db' seat Hseat.
  rewrite debate_adjudicator_first_read by congruence.
  assert (Hadj1 : adjudicator s1 = Some adj).
  { change (adjudicator (uncached s1) = Some adj). rewrite Hu. exact Hadj. }
  rewrite Hadj1, (debate_idempotent _ _ _ E), Hseat. reflexivity.
Qed.

(** X20. The two remaining edges of a first read: a feedback without a
    target adjudicator raises [AttributeError], which the handler for a
    missing seat does not catch; a coherent feedback with a target and no
    source has no debate to look in and yields [None] for every table. *)
Theorem debate_adjudicator_without_target_or_source (db : Database) (self : t) :
  _debateadj (attrs self) = None ->
  cached_debate_adjudicator (attrs self) = None ->
  (adjudicator self = None -> debate_adjudicator db self = (Raise AttributeError, self))
  /\ (coherent self -> adjudicator self <> None ->
      source_adjudicator self = None -> source_team self = None ->
      fst (debate_adjudicator db self) = Return None).
Proof.
  intros Hattr Hcache. rewrite debate_adjudicator_first_read by assumption. split.
  - intros ->. reflexivity.
  - intros Hco Hadj Hsa Hst. pose proof (debate_coherent self Hco) as Hd.
    rewrite Hsa, Hst in Hd.
    destruct (adjudicator self) as [adj |]; [| contradiction].
    destruct (debate self) as [r s1]. simpl in Hd. subst r. reflexivity.
Qed.

End seat.

(** ** Further runs on the sample data *)

Section further_runs.

Import AdjudicatorFeedback.

Lemma clean_accepts_only_panel_targets_witness :
  exists adj d,
    adjudicator Sample.from_adjudicator = Some adj
    /\ fst (debate Sample.from_adjudicator) = Return (Some d)
    /\ Py.contains Adjudicator.eqb adj (Debate.adjudicators d) = true
    /\ Submission_clean (Submission := Sample.lenient) (snd (debate Sample.from_adjudicator))
       = Return tt.
Proof.
  apply (clean_accepts_only_panel_targets (base := Sample.lenient) Sample.from_adjudicator).
  reflexivity.
Defined.

Lemma clean_outcomes_witness :
  fst (clean (base := Sample.lenient) Sample.on_absent)
    = Raise (ValidationError "Either the source adjudicator or source team wasn't specified.")
  \/ fst (clean (base := Sample.lenient) Sample.on_absent)
    = Raise (ValidationError "There was both a source adjudicator and a source team.")
  \/ (exactly_one_source Sample.on_absent /\ adjudicator Sample.on_absent = None
      /\ fst (clean (base := Sample.lenient) Sample.on_absent) = Raise AttributeError)
  \/ fst (clean (base := Sample.lenient) Sample.on_absent)
    = Raise (ValidationError "Adjudicator did not see this debate.")
  \/ fst (clean (base := Sample.lenient) Sample.on_absent)
    = Submission_clean (Submission := Sample.lenient) (snd (debate Sample.on_absent)).
Proof.
  apply (clean_outcomes (base := Sample.lenient) Sample.on_absent).
  split; intros x H; discriminate H.
Defined.

(** Coherence is needed for that: on an instance whose cache says there is
    no debate although a source is set, [clean] reaches the panel check with
    [None] and raises [AttributeError]. *)
Example clean_on_stale_cache :
  fst (clean (base := Sample.lenient)
             (with_attrs (set_cached_debate None) Sample.from_team))
  = Raise AttributeError.
Proof. reflexivity. Qed.

(** With one source and no target, reading [self.adjudicator] raises before
    the third test is made. *)
Example clean_on_unset_target :
  fst (clean (base := Sample.lenient) Orphans.no_target) = Raise AttributeError.
Proof. reflexivity. Qed.

Lemma clean_makes_weight_readable_witness :
  exists (r : option Round.t) (w : Q),
    fst (round Sample.from_team) = Return r
    /\ fst (feedback_weight Sample.from_team) = Return w
    /\ fst (feedback_weight (snd (clean (base := Sample.lenient) Sample.from_team))) = Return w
    /\ w = match r with Some r => Round.feedback_weight r | None => 1%Q end.
Proof.
  apply (clean_makes_weight_readable (base := Sample.lenient) Sample.from_team).
  - split; intros x H; discriminate H.
  - reflexivity.
Defined.

Lemma unique_unconfirm_args_keeps_other_entries_witness :
  snd (_unique_unconfirm_args (base := Sample.lenient) Sample.from_team) = Sample.from_team
  /\ (forall k, k <> "adjudicator" ->
        delete "adjudicator" (Sample.unique_filter_args Sample.from_team) !! k
        = Sample.unique_filter_args Sample.from_team !! k)
  /\ delete "adjudicator" (Sample.unique_filter_args Sample.from_team)
     ⊆ Sample.unique_filter_args Sample.from_team.
Proof.
  apply (unique_unconfirm_args_keeps_other_entries (base := Sample.lenient)
           Sample.from_team
           (snd (_unique_unconfirm_args (base := Sample.lenient) Sample.from_team))
           (Sample.unique_filter_args Sample.from_team)
           (delete "adjudicator" (Sample.unique_filter_args Sample.from_team)));
    reflexivity.
Defined.

Lemma unique_unconfirm_args_errors_witness :
  _unique_unconfirm_args (base := Orphans.short_key) Sample.from_team
  = (Raise (KeyError "adjudicator"), Sample.from_team).
Proof.
  apply (proj2 (proj2 (unique_unconfirm_args_errors (base := Orphans.short_key)
                         Sample.from_team))
           (delete "adjudicator" (Sample.unique_filter_args Sample.from_team))
           Sample.team Sample.round);
    reflexivity.
Defined.

Lemma debate_adjudicator_returns_matching_seat_witness :
  In Sample.seat_alice (debateadjudicators Sample.db)
  /\ exists adj d,
       adjudicator Sample.from_adjudicator = Some adj
       /\ fst (debate Sample.from_adjudicator) = Return (Some d)
       /\ Adjudicator.pk (DebateAdjudicator.adjudicator Sample.seat_alice) = Adjudicator.pk adj
       /\ Debate.pk (DebateAdjudicator.debate Sample.seat_alice) = Debate.pk d.
Proof.
  apply (debate_adjudicator_returns_matching_seat Sample.db Sample.from_adjudicator
           Sample.seat_alice); reflexivity.
Defined.

Lemma debate_adjudicator_duplicate_seats_witness :
  exists self',
    debate_adjudicator Orphans.db Sample.from_adjudicator
    = (Raise MultipleObjectsReturned, self')
    /\ _debateadj (attrs self') = None
    /\ cached_debate_adjudicator (attrs self') = None
    /\ (forall db' seat,
          debateadjudicator_set_filter db' Sample.alice (Some Sample.debate) = [seat] ->
          fst (debate_adjudicator db' self') = Return (Some seat)).
Proof.
  apply (debate_adjudicator_duplicate_seats Orphans.db Sample.from_adjudicator
           Sample.alice Sample.debate Sample.seat_alice Sample.seat_alice []);
    reflexivity.
Defined.

Lemma debate_adjudicator_without_target_or_source_witness :
  fst (debate_adjudicator Sample.db Orphans.no_source) = Return None.
Proof.
  apply (proj2 (debate_adjudicator_without_target_or_source Sample.db Orphans.no_source
                  eq_refl eq_refl)); try reflexivity.
  - split; intros x H; discriminate H.
  - discriminate.
Defined.

End further_runs.
